(** * Stroskovnik: the manufacturing price calculator

    A shallow embedding of [manufacturing_calculator.py] (the single-quantity
    engine [calculate_price], the machine-rate aggregator and the
    multi-quantity engine [calculate_multi_quantity_prices]) and of
    [validate_inputs] from [utils.py], with the properties of the pricing
    model proved about them.

    Number model.  Python's numbers are taken as exact rationals ([Q], compared
    with [==]); integers (batch sizes, quantities, tier thresholds) are [Z].
    True division [a / b] raises [ZeroDivisionError] when [b] is zero, both on
    [int] and on [float]; this is the only exception the engines can raise and
    it is kept explicit in the [result] type ([truediv]).  A division by a
    nonzero literal ([/ 60.0], [/ 100.0], [/ 100]) cannot raise and is written
    with the total [/] of [Q].  Rounding of binary floating point is outside
    the model. *)

From Stdlib Require Import QArith Qfield Lqa Ascii.
From stdpp Require Import base option list sorting gmap strings.

Local Open Scope Q_scope.

(** ** Exceptions and results *)

Inductive exn : Set := ZeroDivisionError.

Inductive result (A : Type) : Type :=
  | Ok (a : A)
  | Raise (e : exn).
Arguments Ok {A} a.
Arguments Raise {A} e.

Global Instance result_ret : MRet result := fun A a => Ok a.
Global Instance result_bind : MBind result := fun A B f m =>
  match m with
  | Ok a => f a
  | Raise e => Raise e
  end.

(** The comparisons of the source, as decidable propositions on [Q]. *)
Global Instance Q_eq_dec (x y : Q) : Decision (x == y) := Qeq_dec x y.
Global Instance Q_lt_dec (x y : Q) : Decision (x < y) :=
  match Qlt_le_dec x y with
  | left H => left H
  | right H => right (Qle_not_lt _ _ H)
  end.
Global Instance Q_le_dec (x y : Q) : Decision (x <= y) :=
  match Qlt_le_dec y x with
  | left H => right (Qlt_not_le _ _ H)
  | right H => left H
  end.

(** [a / b] of Python 3 on numbers. *)
Definition truediv (a b : Q) : result Q :=
  if decide (b == 0) then Raise ZeroDivisionError else Ok (a / b).

(** ** manufacturing_calculator.py *)

(** The dictionary returned by [calculate_price]; one field per key. *)
Record price_result : Type := PriceResult {
  machine_cost_per_piece : Q;
  labor_cost_per_piece : Q;
  material_cost_per_piece : Q;
  additional_material_cost : Q;
  direct_cost_per_piece : Q;
  overhead_cost_per_piece : Q;
  base_cost_per_piece : Q;
  profit_per_piece : Q;
  price_per_piece : Q;
  total_batch_cost : Q;
  machine_cost_percentage : Q;
  material_cost_percentage : Q;
  additional_material_cost_percentage : Q;
  labor_cost_percentage : Q;
  overhead_cost_percentage : Q;
  base_cost_percentage : Q;
  profit_percentage : Q
}.

Definition calculate_machine_cost_per_hour
    (electricity_cost_per_hour maintenance_cost_per_hour
     depreciation_cost_per_hour facility_cost_per_hour
     other_costs_per_hour labor_cost_per_hour : Q) : Q :=
  electricity_cost_per_hour + maintenance_cost_per_hour
  + depreciation_cost_per_hour + facility_cost_per_hour
  + other_costs_per_hour + labor_cost_per_hour.

Definition calculate_price
    (machine_cost_per_hour material_cost_per_unit production_time_minutes
     labor_cost_per_hour overhead_percentage profit_margin_percentage
     additional_material_cost : Q)
    (batch_size : Z) (include_labor_cost : bool) : result price_result :=
  let production_time_hours := production_time_minutes / 60 in
  let machine_cost_per_piece := machine_cost_per_hour * production_time_hours in
  let labor_cost_per_piece :=
    if include_labor_cost then labor_cost_per_hour * production_time_hours
    else 0 in
  let material_cost_per_piece := material_cost_per_unit in
  let direct_cost_per_piece :=
    machine_cost_per_piece + labor_cost_per_piece + material_cost_per_piece
    + additional_material_cost in
  let overhead_cost_per_piece :=
    direct_cost_per_piece * (overhead_percentage / 100) in
  let base_cost_per_piece := direct_cost_per_piece + overhead_cost_per_piece in
  let profit_per_piece :=
    base_cost_per_piece * (profit_margin_percentage / 100) in
  let price_per_piece := base_cost_per_piece + profit_per_piece in
  let total_batch_cost := price_per_piece * inject_Z batch_size in
  let total_cost := price_per_piece in
  machine_share ← truediv machine_cost_per_piece total_cost;
  material_share ← truediv material_cost_per_piece total_cost;
  additional_share ← truediv additional_material_cost total_cost;
  labor_share ← truediv labor_cost_per_piece total_cost;
  overhead_share ← truediv overhead_cost_per_piece total_cost;
  base_share ← truediv base_cost_per_piece total_cost;
  profit_share ← truediv profit_per_piece total_cost;
  mret {|
    machine_cost_per_piece := machine_cost_per_piece;
    labor_cost_per_piece := labor_cost_per_piece;
    material_cost_per_piece := material_cost_per_piece;
    additional_material_cost := additional_material_cost;
    direct_cost_per_piece := direct_cost_per_piece;
    overhead_cost_per_piece := overhead_cost_per_piece;
    base_cost_per_piece := base_cost_per_piece;
    profit_per_piece := profit_per_piece;
    price_per_piece := price_per_piece;
    total_batch_cost := total_batch_cost;
    machine_cost_percentage := machine_share * 100;
    material_cost_percentage := material_share * 100;
    additional_material_cost_percentage := additional_share * 100;
    labor_cost_percentage := labor_share * 100;
    overhead_cost_percentage := overhead_share * 100;
    base_cost_percentage := base_share * 100;
    profit_percentage := profit_share * 100
  |}.

(** The dictionary stored under each quantity by
    [calculate_multi_quantity_prices]. *)
Module Quantity.
Record t : Type := Make {
  price_per_piece : Q;
  total_cost : Q;
  setup_cost_per_piece : Q;
  material_discount_percentage : Q;
  discounted_material_cost : Q;
  base_result : price_result
}.
End Quantity.

(** [sorted(material_discount_tiers.items())]: the items are (threshold,
    discount) pairs; the keys of a dictionary are pairwise different, so the
    order of the pairs is the order of their thresholds. *)
Definition tier_le (a b : Z * Q) : Prop := (a.1 ≤ b.1)%Z.

Global Instance tier_le_dec a b : Decision (tier_le a b) :=
  decide ((a.1 ≤ b.1)%Z).

Global Instance tier_le_trans : Transitive tier_le.
Proof. intros a b c. unfold tier_le. lia. Qed.

Global Instance tier_le_total : Total tier_le.
Proof. intros a b. unfold tier_le. lia. Qed.

Definition sorted_items (material_discount_tiers : gmap Z Q) : list (Z * Q) :=
  merge_sort tier_le (map_to_list material_discount_tiers).

(** The inner loop over the sorted tiers: every tier that applies to the
    quantity overwrites [applied_discount]. *)
Definition applied_discount_loop (quantity : Z) (items : list (Z * Q)) (applied_discount : Q) : Q :=
  foldl (fun applied_discount item =>
           let '(tier_quantity, discount_percentage) := item in
           if decide (tier_quantity ≤ quantity)%Z then discount_percentage
           else applied_discount)
        applied_discount items.

Definition applied_discount (material_discount_tiers : gmap Z Q) (quantity : Z) : Q :=
  applied_discount_loop quantity (sorted_items material_discount_tiers) 0.

Section multi_quantity.
Variables (machine_cost_per_hour material_cost_per_unit
           production_time_minutes setup_time_minutes : Q).
(** The setup rate and the tiers after their defaults were resolved. *)
Variable setup_cost_per_hour : Q.
Variable material_discount_tiers : gmap Z Q.
Variables (overhead_percentage profit_margin_percentage
           additional_material_cost : Q).
Variable include_labor_cost : bool.
Variable labor_cost_per_hour : Q.

(** The body of the loop over [quantities], for one quantity. *)
Definition quantity_entry (quantity : Z) : result Quantity.t :=
  let setup_time_hours := setup_time_minutes / 60 in
  let setup_cost := setup_cost_per_hour * setup_time_hours in
  setup_cost_per_piece ← truediv setup_cost (inject_Z quantity);
  let applied_discount := applied_discount material_discount_tiers quantity in
  let discounted_material_cost :=
    if decide (0 < applied_discount)
    then material_cost_per_unit * (1 - applied_discount / 100)
    else material_cost_per_unit in
  regular_result ←
    calculate_price machine_cost_per_hour discounted_material_cost
      production_time_minutes labor_cost_per_hour overhead_percentage
      profit_margin_percentage additional_material_cost quantity
      include_labor_cost;
  let price_with_setup := price_per_piece regular_result + setup_cost_per_piece in
  let total_cost := price_with_setup * inject_Z quantity in
  mret {|
    Quantity.price_per_piece := price_with_setup;
    Quantity.total_cost := total_cost;
    Quantity.setup_cost_per_piece := setup_cost_per_piece;
    Quantity.material_discount_percentage := applied_discount;
    Quantity.discounted_material_cost := discounted_material_cost;
    Quantity.base_result := regular_result
  |}.

(** The loop over [quantities]; [results] is the dictionary built so far,
    and an exception leaves the loop at once. *)
Fixpoint quantities_loop (quantities : list Z) (results : gmap Z Quantity.t)
    : result (gmap Z Quantity.t) :=
  match quantities with
  | [] => mret results
  | quantity :: rest =>
      entry ← quantity_entry quantity;
      quantities_loop rest (<[quantity := entry]> results)
  end.
End multi_quantity.

(** [None] stands for an argument left at its default [None]. *)
Definition calculate_multi_quantity_prices
    (machine_cost_per_hour material_cost_per_unit production_time_minutes
     setup_time_minutes : Q)
    (quantities : list Z)
    (setup_cost_per_hour : option Q)
    (material_discount_tiers : option (gmap Z Q))
    (overhead_percentage profit_margin_percentage additional_material_cost : Q)
    (include_labor_cost : bool) (labor_cost_per_hour : Q)
    : result (gmap Z Quantity.t) :=
  let setup_cost_per_hour :=
    match setup_cost_per_hour with
    | None => machine_cost_per_hour
    | Some rate => rate
    end in
  let material_discount_tiers :=
    match material_discount_tiers with
    | None => ∅
    | Some tiers => tiers
    end in
  quantities_loop machine_cost_per_hour material_cost_per_unit
    production_time_minutes setup_time_minutes setup_cost_per_hour
    material_discount_tiers overhead_percentage profit_margin_percentage
    additional_material_cost include_labor_cost labor_cost_per_hour
    quantities ∅.

(** ** utils.py *)

Definition validate_inputs
    (machine_cost_per_hour material_cost_per_unit production_time_minutes
     labor_cost_per_hour overhead_percentage profit_margin_percentage : Q)
    (batch_size : Z) : bool * string :=
  if decide (machine_cost_per_hour < 0) then
    (false, "Machine cost per hour cannot be negative.")
  else if decide (material_cost_per_unit < 0) then
    (false, "Material cost per unit cannot be negative.")
  else if decide (production_time_minutes <= 0) then
    (false, "Production time must be greater than zero.")
  else if decide (labor_cost_per_hour < 0) then
    (false, "Labor cost per hour cannot be negative.")
  else if decide (overhead_percentage < 0 ∨ 100 < overhead_percentage) then
    (false, "Overhead percentage must be between 0 and 100.")
  else if decide (profit_margin_percentage < 0 ∨ 100 < profit_margin_percentage) then
    (false, "Profit margin percentage must be between 0 and 100.")
  else if decide (batch_size ≤ 0)%Z then
    (false, "Batch size must be greater than zero.")
  else (true, "Inputs valid").

(** *** The preset store

    A Python string is a list of characters, and a character of the model
    stands for one code point.  The functions of [os], [json] and the file
    objects are what the platform provides: they are the fields of the class
    [runtime], over a type [fs] of file system states and a type [json] of
    the values that [json.dump] and [json.load] exchange.  A computation
    takes the state and gives the next state with its result, or with [None]
    when an exception was raised.  What [print] writes in the [except]
    branches is not part of the model. *)
Abbreviation str := (list ascii).

Definition lit (s : string) : str := String.list_ascii_of_string s.

Definition io (fs A : Type) : Type := fs → fs * option A.


Class runtime (fs json : Type) := Runtime {
  (** [str.lower] *)
  str_lower : str → str;
  (** [os.path.join], [os.path.exists], [os.makedirs], [os.listdir],
      [os.remove] *)
  path_join : str → str → str;
  path_exists : str → fs → bool;
  makedirs : str → io fs unit;
  listdir : str → fs → option (list str);
  remove : str → io fs unit;
  (** [with open(path, 'w') as f: json.dump(data, f, indent=4)] and
      [with open(path, 'r') as f: json.load(f)] *)
  write_json : str → json → io fs unit;
  read_json : str → fs → option json
}.




Definition endswith (s t : str) : bool := bool_decide (t `suffix_of` s).

(** [s.rfind(c)] for one character: the last index of [c], or -1. *)
Fixpoint rfind_from (c : ascii) (s : str) (i last : Z) : Z :=
  match s with
  | [] => last
  | x :: s' => rfind_from c s' (i + 1) (if decide (x = c) then i else last)
  end.

Definition rfind (c : ascii) (s : str) : Z := rfind_from c s 0 (-1).

(** [os.path.splitext] of [posixpath]: the extension starts at the last dot
    of the last component, unless only dots come before it there. *)
Definition splitext (p : str) : str * str :=
  let sepIndex := rfind "/" p in
  let dotIndex := rfind "." p in
  if decide (sepIndex < dotIndex)%Z then
    let leading :=
      take (Z.to_nat (dotIndex - (sepIndex + 1)))
           (drop (Z.to_nat (sepIndex + 1)) p) in
    if forallb (fun c => bool_decide (c = "."%char)) leading
    then (p, [])
    else (take (Z.to_nat dotIndex) p, drop (Z.to_nat dotIndex) p)
  else (p, []).

Section preset_store.
Context {fs json : Type} `{!runtime fs json}.





End preset_store.

(** What the properties of the preset store ask of the platform.  Creating
    a directory makes it exist; a file that was written can be read back and
    exists; writing a file and removing a file make no other path vanish; a
    removed file is gone; a path inside the presets directory is not the
    directory itself; a file written into a directory under a name without
    separator is listed there. *)
Class runtime_laws {fs json : Type} `{!runtime fs json} : Prop := {
  makedirs_exists d s s' :
    makedirs d s = (s', Some tt) → path_exists d s' = true;
  write_read p (j : json) s s' :
    write_json p j s = (s', Some tt) →
    read_json p s' = Some j ∧ path_exists p s' = true;
  write_keeps p (j : json) s s' r q :
    write_json p j s = (s', r) →
    path_exists q s = true → path_exists q s' = true;
  remove_gone p s s' :
    remove p s = (s', Some tt) → path_exists p s' = false;
  remove_keeps p s s' r q :
    remove p s = (s', r) → q ≠ p →
    path_exists q s = true → path_exists q s' = true;
  presets_not_inside n :
    path_join (lit "presets") n ≠ lit "presets";
  listdir_written d n (j : json) s s' :
    write_json (path_join d n) j s = (s', Some tt) →
    "/"%char ∉ n →
    ∃ files, listdir d s' = Some files ∧ n ∈ files
}.


Definition load_file_name (preset_name : str) : str :=
  if endswith preset_name (lit ".json") then preset_name
  else preset_name ++ lit ".json".

(** A file system in memory, with the presets as strings: the directories
    that were made and the files that were written.  It shows that
    [runtime_laws] can be met. *)
Record mem : Type := Mem {
  mem_dirs : list str;
  mem_files : gmap str string
}.

Definition ascii_lower (c : ascii) : ascii :=
  let n := nat_of_ascii c in
  if decide (65 ≤ n ≤ 90)%nat then ascii_of_nat (n + 32) else c.

Definition mem_listdir (d : str) (s : mem) : option (list str) :=
  Some (omap (fun '(p, _) =>
          let n := drop (length d + 1) p in
          if decide (p = d ++ "/"%char :: n ∧ "/"%char ∉ n) then Some n
          else None)
        (map_to_list (mem_files s))).

Global Instance mem_runtime : runtime mem string := {|
  str_lower := fmap ascii_lower;
  path_join d n := d ++ "/"%char :: n;
  path_exists p s := bool_decide (p ∈ mem_dirs s ∨ is_Some (mem_files s !! p));
  makedirs d s := (Mem (d :: mem_dirs s) (mem_files s), Some tt);
  listdir := mem_listdir;
  remove p s :=
    match mem_files s !! p with
    | Some _ =>
        if decide (p ∈ mem_dirs s) then (s, None)
        else (Mem (mem_dirs s) (delete p (mem_files s)), Some tt)
    | None => (s, None)
    end;
  write_json p j s := (Mem (mem_dirs s) (<[p := j]> (mem_files s)), Some tt);
  read_json p s := mem_files s !! p
|}.

(** ** Definitions used to state the properties *)

(** The price of one piece, as [calculate_price] computes it before the
    breakdown into percentages. *)
Definition price_of
    (machine_cost_per_hour material_cost_per_unit production_time_minutes
     labor_cost_per_hour overhead_percentage profit_margin_percentage
     additional_material_cost : Q) (include_labor_cost : bool) : Q :=
  let hours := production_time_minutes / 60 in
  let direct :=
    machine_cost_per_hour * hours
    + (if include_labor_cost then labor_cost_per_hour * hours else 0)
    + material_cost_per_unit + additional_material_cost in
  let base := direct + direct * (overhead_percentage / 100) in
  base + base * (profit_margin_percentage / 100).

(** Two records that agree on every field but [total_batch_cost]. *)
Definition same_except_total_batch_cost (r1 r2 : price_result) : Prop :=
  machine_cost_per_piece r1 = machine_cost_per_piece r2 ∧
  labor_cost_per_piece r1 = labor_cost_per_piece r2 ∧
  material_cost_per_piece r1 = material_cost_per_piece r2 ∧
  additional_material_cost r1 = additional_material_cost r2 ∧
  direct_cost_per_piece r1 = direct_cost_per_piece r2 ∧
  overhead_cost_per_piece r1 = overhead_cost_per_piece r2 ∧
  base_cost_per_piece r1 = base_cost_per_piece r2 ∧
  profit_per_piece r1 = profit_per_piece r2 ∧
  price_per_piece r1 = price_per_piece r2 ∧
  machine_cost_percentage r1 = machine_cost_percentage r2 ∧
  material_cost_percentage r1 = material_cost_percentage r2 ∧
  additional_material_cost_percentage r1 = additional_material_cost_percentage r2 ∧
  labor_cost_percentage r1 = labor_cost_percentage r2 ∧
  overhead_cost_percentage r1 = overhead_cost_percentage r2 ∧
  base_cost_percentage r1 = base_cost_percentage r2 ∧
  profit_percentage r1 = profit_percentage r2.

(** The value of the local variable [setup_cost]. *)
Definition setup_cost_of (setup_cost_per_hour setup_time_minutes : Q) : Q :=
  setup_cost_per_hour * (setup_time_minutes / 60).

(** The value of the local variable [discounted_material_cost] once the
    discount is known. *)
Definition discounted_cost_of (material_cost_per_unit applied_discount : Q) : Q :=
  if decide (0 < applied_discount)
  then material_cost_per_unit * (1 - applied_discount / 100)
  else material_cost_per_unit.

(** The defaults of the two optional arguments. *)
Definition setup_rate_of (machine_cost_per_hour : Q) (setup_cost_per_hour : option Q) : Q :=
  match setup_cost_per_hour with
  | None => machine_cost_per_hour
  | Some rate => rate
  end.

Definition tiers_of (material_discount_tiers : option (gmap Z Q)) : gmap Z Q :=
  match material_discount_tiers with
  | None => ∅
  | Some tiers => tiers
  end.

(** The spec's words: the tier that wins is the one with the highest
    threshold among those whose threshold is at most the quantity. *)
Definition highest_qualifying_tier (tiers : gmap Z Q) (quantity k : Z) : Prop :=
  is_Some (tiers !! k) ∧ (k ≤ quantity)%Z ∧
  ∀ k', is_Some (tiers !! k') → (k' ≤ quantity)%Z → (k' ≤ k)%Z.

Definition no_tier_qualifies (tiers : gmap Z Q) (quantity : Z) : Prop :=
  ∀ k', is_Some (tiers !! k') → (quantity < k')%Z.

(** The discount the spec asks for: the discount of the highest qualifying
    tier, and 0 when no tier qualifies. *)
Definition resolves_to (tiers : gmap Z Q) (quantity : Z) (d : Q) : Prop :=
  (∃ k, highest_qualifying_tier tiers quantity k ∧ tiers !! k = Some d) ∨
  (no_tier_qualifies tiers quantity ∧ d = 0).

(** The tiers of the docstring: 5 percent from 10 pieces, 10 percent from 50,
    15 percent from 100. *)
Definition example_tiers : gmap Z Q :=
  {[ 10%Z := 5; 50%Z := 10; 100%Z := 15 ]}.

(** The spec's words: seven checks in a fixed order, each with its reason;
    the first check that fails gives the answer. *)
Definition validation_checks (m mat t l oh pm : Q) (b : Z) : list (bool * string) :=
  [ (bool_decide (0 <= m), "Machine cost per hour cannot be negative.");
    (bool_decide (0 <= mat), "Material cost per unit cannot be negative.");
    (bool_decide (0 < t), "Production time must be greater than zero.");
    (bool_decide (0 <= l), "Labor cost per hour cannot be negative.");
    (bool_decide (0 <= oh ∧ oh <= 100),
      "Overhead percentage must be between 0 and 100.");
    (bool_decide (0 <= pm ∧ pm <= 100),
      "Profit margin percentage must be between 0 and 100.");
    (bool_decide (0 < b)%Z, "Batch size must be greater than zero.") ].

Fixpoint first_failure (checks : list (bool * string)) : bool * string :=
  match checks with
  | [] => (true, "Inputs valid")
  | (true, _) :: rest => first_failure rest
  | (false, reason) :: _ => (false, reason)
  end.

(** The direct cost of one piece: the sum that [calculate_price] holds in
    [direct_cost_per_piece]. *)
Definition direct_of
    (machine_cost_per_hour material_cost_per_unit production_time_minutes
     labor_cost_per_hour additional_material_cost : Q)
    (include_labor_cost : bool) : Q :=
  machine_cost_per_hour * (production_time_minutes / 60)
  + (if include_labor_cost
     then labor_cost_per_hour * (production_time_minutes / 60) else 0)
  + material_cost_per_unit + additional_material_cost.

(** The inputs that [validate_inputs] lets through. *)
Definition accepted (m mat t l oh pm : Q) (b : Z) : Prop :=
  validate_inputs m mat t l oh pm b = (true, "Inputs valid").

(** Tiers whose discounts are percentages, and tiers whose discounts grow
    with their thresholds. *)
Definition discounts_within (tiers : gmap Z Q) : Prop :=
  ∀ k d, tiers !! k = Some d → 0 <= d ∧ d <= 100.

Definition discounts_increasing (tiers : gmap Z Q) : Prop :=
  ∀ k1 k2 d1 d2,
    tiers !! k1 = Some d1 → tiers !! k2 = Some d2 → (k1 ≤ k2)%Z → d1 <= d2.

(** ** Basic facts about the result monad and division *)

Lemma truediv_Ok a b : ¬ b == 0 → truediv a b = Ok (a / b).
Proof.
  intros Hb. unfold truediv.
  destruct (decide (b == 0)); [contradiction | reflexivity].
Qed.

Lemma truediv_Raise a b : b == 0 → truediv a b = Raise ZeroDivisionError.
Proof.
  intros Hb. unfold truediv.
  destruct (decide (b == 0)); [reflexivity | contradiction].
Qed.

Lemma truediv_inv a b c : truediv a b = Ok c → ¬ b == 0 ∧ c = a / b.
Proof.
  unfold truediv. destruct (decide (b == 0)); [discriminate |].
  intros [= <-]. split; [assumption | reflexivity].
Qed.

Lemma bind_Ok {A B} (f : A → result B) a : Ok a ≫= f = f a.
Proof. reflexivity. Qed.

Lemma bind_inv {A B} (f : A → result B) m b :
  m ≫= f = Ok b → ∃ a, m = Ok a ∧ f a = Ok b.
Proof. destruct m as [a|e]; [eauto | discriminate]. Qed.

(** ** The single-quantity engine *)

(** Unfold [calculate_price] and split on whether the price is zero, which
    all seven divisions share. *)
Ltac price_cases H0 :=
  unfold calculate_price, price_of; cbv zeta; unfold truediv;
  match goal with
  | |- context [decide (?p == 0)] => destruct (decide (p == 0)) as [H0|H0]
  end;
  rewrite ?bind_Ok.

Lemma calculate_price_Raise m mat t l oh pm add b inc :
  price_of m mat t l oh pm add inc == 0 →
  calculate_price m mat t l oh pm add b inc = Raise ZeroDivisionError.
Proof. intros H. revert H. price_cases H0; [reflexivity | contradiction]. Qed.

Lemma calculate_price_Ok m mat t l oh pm add b inc :
  ¬ price_of m mat t l oh pm add inc == 0 →
  ∃ r, calculate_price m mat t l oh pm add b inc = Ok r.
Proof. intros H. revert H. price_cases H0; [contradiction | eauto]. Qed.

(** C1. Whenever [calculate_price] returns a record and its
    [price_per_piece] is positive, the six percentage fields (machine, labor,
    material, additional material, overhead, profit) sum to 100, exactly over
    the rationals; [base_cost_percentage] is a seventh field and is not part
    of the sum. *)
Theorem percentages_sum_to_100 m mat t l oh pm add b inc r :
  calculate_price m mat t l oh pm add b inc = Ok r →
  0 < price_per_piece r →
  machine_cost_percentage r + labor_cost_percentage r
  + material_cost_percentage r + additional_material_cost_percentage r
  + overhead_cost_percentage r + profit_percentage r == 100.
Proof.
  unfold calculate_price; cbv zeta.
  match goal with |- context [truediv _ ?p] => set (price := p) end.
  unfold truediv. destruct (decide (price == 0)) as [H0|H0]; [discriminate |].
  rewrite !bind_Ok. intros [= <-] _.
  cbn [machine_cost_percentage labor_cost_percentage
       material_cost_percentage additional_material_cost_percentage
       overhead_cost_percentage profit_percentage].
  set (labor := if inc then _ else _) in *.
  assert (Hp : price == price) by reflexivity.
  unfold price at 2 in Hp. clearbody price.
  field_simplify_eq; [| exact H0]. rewrite Hp. field.
Qed.

Lemma percentages_sum_to_100_witness :
  ∃ r, calculate_price 60 2 6 0 20 25 0 1 false = Ok r ∧
       0 < price_per_piece r ∧
       machine_cost_percentage r + labor_cost_percentage r
       + material_cost_percentage r + additional_material_cost_percentage r
       + overhead_cost_percentage r + profit_percentage r == 100.
Proof.
  eexists. split; [vm_compute; reflexivity |].
  split; [vm_compute; reflexivity |].
  apply (percentages_sum_to_100 60 2 6 0 20 25 0 1 false);
    [vm_compute; reflexivity | vm_compute; reflexivity].
Defined.

(** C2. The validator accepts the input with machine cost, material cost and
    additional material cost all zero and a positive production time, and on
    that input [calculate_price] raises [ZeroDivisionError] at its first
    percentage: the division by a zero price is not guarded. *)
Theorem zero_cost_input_raises :
  validate_inputs 0 0 1 0 20 25 1 = (true, "Inputs valid"%string) ∧
  calculate_price 0 0 1 0 20 25 0 1 false = Raise ZeroDivisionError.
Proof. split; vm_compute; reflexivity. Qed.

(** The same on every accepted input without costs: whatever the production
    time, the percentages and the batch size are. *)
Lemma costless_input_raises t l oh pm b :
  calculate_price 0 0 t l oh pm 0 b false = Raise ZeroDivisionError.
Proof.
  apply calculate_price_Raise. unfold price_of. cbv zeta. field.
Qed.

(** C7. The end-to-end example of the single-quantity engine: machine rate
    60 per hour, material 2, 6 minutes per piece, 20 percent overhead, 25
    percent profit, no additional material, batch size 1, labor not
    included separately. *)
Theorem end_to_end_example :
  ∃ r, calculate_price 60 2 6 0 20 25 0 1 false = Ok r ∧
       machine_cost_per_piece r == 6 ∧
       direct_cost_per_piece r == 8 ∧
       overhead_cost_per_piece r == 1.6 ∧
       base_cost_per_piece r == 9.6 ∧
       profit_per_piece r == 2.4 ∧
       price_per_piece r == 12.
Proof.
  eexists. split; [vm_compute; reflexivity |].
  repeat split; vm_compute; reflexivity.
Qed.

(** C8. With every other input fixed, two batch sizes [b1, b2 >= 1] give
    the same outcome up to [total_batch_cost]: both runs raise, or both
    return records that agree on all other fields, and each
    [total_batch_cost] is [price_per_piece] times the batch size. *)
Theorem batch_size_only_total_batch_cost m mat t l oh pm add inc (b1 b2 : Z) :
  (1 ≤ b1)%Z → (1 ≤ b2)%Z →
  match calculate_price m mat t l oh pm add b1 inc,
        calculate_price m mat t l oh pm add b2 inc with
  | Ok r1, Ok r2 =>
      same_except_total_batch_cost r1 r2 ∧
      total_batch_cost r1 = price_per_piece r1 * inject_Z b1 ∧
      total_batch_cost r2 = price_per_piece r2 * inject_Z b2
  | Raise e1, Raise e2 => e1 = e2
  | _, _ => False
  end.
Proof.
  intros _ _. price_cases H0; [reflexivity |].
  unfold same_except_total_batch_cost. cbn. repeat split.
Qed.

Lemma batch_size_only_total_batch_cost_witness :
  match calculate_price 60 2 6 0 20 25 0 1 false,
        calculate_price 60 2 6 0 20 25 0 10 false with
  | Ok r1, Ok r2 =>
      same_except_total_batch_cost r1 r2 ∧
      total_batch_cost r1 = price_per_piece r1 * inject_Z 1 ∧
      total_batch_cost r2 = price_per_piece r2 * inject_Z 10
  | Raise e1, Raise e2 => e1 = e2
  | _, _ => False
  end.
Proof.
  apply (batch_size_only_total_batch_cost 60 2 6 0 20 25 0 false 1 10); lia.
Defined.

(** ** The multi-quantity engine *)

Section multi_quantity_facts.
Variables (m mat t st rate : Q) (tiers : gmap Z Q) (oh pm add : Q)
          (inc : bool) (l : Q).

Local Abbreviation entry := (quantity_entry m mat t st rate tiers oh pm add inc l).
Local Abbreviation loop := (quantities_loop m mat t st rate tiers oh pm add inc l).

Lemma quantity_entry_inv q e :
  entry q = Ok e →
  ¬ inject_Z q == 0 ∧
  ∃ r, calculate_price m (discounted_cost_of mat (applied_discount tiers q))
         t l oh pm add q inc = Ok r ∧
       e = {| Quantity.price_per_piece :=
                price_per_piece r + setup_cost_of rate st / inject_Z q;
              Quantity.total_cost :=
                (price_per_piece r + setup_cost_of rate st / inject_Z q)
                * inject_Z q;
              Quantity.setup_cost_per_piece :=
                setup_cost_of rate st / inject_Z q;
              Quantity.material_discount_percentage := applied_discount tiers q;
              Quantity.discounted_material_cost :=
                discounted_cost_of mat (applied_discount tiers q);
              Quantity.base_result := r |}.
Proof.
  unfold quantity_entry, setup_cost_of, discounted_cost_of. cbv zeta.
  intros H. apply bind_inv in H as (spp & Hspp & H).
  apply truediv_inv in Hspp as [Hq ->].
  apply bind_inv in H as (r & Hr & H).
  injection H as <-. split; [assumption |]. exists r. split; [assumption | reflexivity].
Qed.

Lemma quantity_entry_Ok q :
  q ≠ 0%Z →
  ¬ price_of m (discounted_cost_of mat (applied_discount tiers q)) t l oh pm add inc == 0 →
  ∃ e, entry q = Ok e.
Proof.
  intros Hq Hp. unfold quantity_entry. cbv zeta.
  rewrite truediv_Ok, bind_Ok.
  - destruct (calculate_price_Ok _ _ _ _ _ _ _ q _ Hp) as [r Hr].
    unfold discounted_cost_of in Hr. rewrite Hr, bind_Ok. eauto.
  - intros H. apply Hq. unfold Qeq in H. simpl in H. lia.
Qed.

(** What the dictionary holds once the loop has come to its end. *)
Lemma quantities_loop_lookup qs results final q :
  loop qs results = Ok final →
  final !! q =
    if decide (q ∈ qs)
    then match entry q with Ok e => Some e | Raise _ => None end
    else results !! q.
Proof.
  revert results. induction qs as [|q0 qs IH]; intros results H.
  - injection H as <-. rewrite decide_False; [reflexivity | apply not_elem_of_nil].
  - cbn [quantities_loop] in H. apply bind_inv in H as (e0 & He0 & H).
    rewrite (IH _ H). destruct (decide (q ∈ qs)) as [Hin|Hin].
    + rewrite decide_True; [reflexivity | by apply list_elem_of_further].
    + destruct (decide (q = q0)) as [->|Hne].
      * rewrite decide_True; [| apply list_elem_of_here].
        rewrite He0. apply lookup_insert_eq.
      * rewrite decide_False; [by apply lookup_insert_ne |].
        rewrite elem_of_cons. tauto.
Qed.

Lemma quantities_loop_inv qs results final q :
  loop qs results = Ok final → q ∈ qs → ∃ e, entry q = Ok e.
Proof.
  revert results. induction qs as [|q0 qs IH]; intros results H Hin.
  - by apply elem_of_nil in Hin.
  - cbn [quantities_loop] in H. apply bind_inv in H as (e0 & He0 & H).
    apply elem_of_cons in Hin as [->|Hin]; eauto.
Qed.

Lemma quantities_loop_Ok qs results :
  (∀ q, q ∈ qs → ∃ e, entry q = Ok e) → ∃ final, loop qs results = Ok final.
Proof.
  revert results. induction qs as [|q0 qs IH]; intros results H.
  - eexists. reflexivity.
  - destruct (H q0) as [e0 He0]; [apply list_elem_of_here |].
    cbn [quantities_loop]. rewrite He0, bind_Ok. apply IH.
    intros q Hq. apply H. by apply list_elem_of_further.
Qed.

Lemma quantities_loop_dom qs results final :
  loop qs results = Ok final → dom final = list_to_set qs ∪ dom results.
Proof.
  revert results. induction qs as [|q0 qs IH]; intros results H.
  - injection H as <-. cbn [list_to_set]. by rewrite (left_id_L ∅ (∪)).
  - cbn [quantities_loop] in H. apply bind_inv in H as (e0 & He0 & H).
    rewrite (IH _ H), dom_insert_L. cbn [list_to_set].
    rewrite (comm_L (∪) {[q0]} (list_to_set qs)).
    by rewrite (assoc_L (∪)).
Qed.
End multi_quantity_facts.

(** ** Discount tiers *)

Lemma elem_of_sorted_items (tiers : gmap Z Q) k v :
  (k, v) ∈ sorted_items tiers ↔ tiers !! k = Some v.
Proof.
  unfold sorted_items. rewrite merge_sort_Permutation.
  apply elem_of_map_to_list.
Qed.

Lemma sorted_items_sorted (tiers : gmap Z Q) :
  StronglySorted tier_le (sorted_items tiers).
Proof. apply StronglySorted_merge_sort; apply _. Qed.

Lemma applied_discount_loop_sorted q items d0 :
  StronglySorted tier_le items →
  (∃ k, (k, applied_discount_loop q items d0) ∈ items ∧ (k ≤ q)%Z ∧
        ∀ k' v', (k', v') ∈ items → (k' ≤ q)%Z → (k' ≤ k)%Z) ∨
  (applied_discount_loop q items d0 = d0 ∧
   ∀ k' v', (k', v') ∈ items → (q < k')%Z).
Proof.
  intros Hs. revert d0.
  induction Hs as [|[k0 v0] items Hs IH Hall]; intros d0.
  - right. split; [reflexivity |]. intros k' v' Hin. by apply elem_of_nil in Hin.
  - unfold applied_discount_loop in *. cbn [foldl].
    destruct (IH (if decide (k0 ≤ q)%Z then v0 else d0))
      as [(k & Hin & Hk & Hmax) | [Heq Hnone]].
    + left. exists k. split; [by apply list_elem_of_further |].
      split; [assumption |]. intros k' v' [[= -> ->] | Hin']%elem_of_cons Hq.
      * rewrite Forall_forall in Hall. apply (Hall _ Hin).
      * by apply (Hmax k' v').
    + rewrite Heq. destruct (decide (k0 ≤ q)%Z) as [Hk0|Hk0].
      * left. exists k0. split; [apply list_elem_of_here |].
        split; [assumption |]. intros k' v' [[= -> ->] | Hin']%elem_of_cons Hq.
        -- lia.
        -- specialize (Hnone _ _ Hin'). lia.
      * right. split; [reflexivity |].
        intros k' v' [[= -> ->] | Hin']%elem_of_cons; [lia | by apply (Hnone k' v')].
Qed.

Lemma applied_discount_resolves tiers q :
  resolves_to tiers q (applied_discount tiers q).
Proof.
  unfold applied_discount.
  destruct (applied_discount_loop_sorted q _ 0 (sorted_items_sorted tiers))
    as [(k & Hin & Hk & Hmax) | [Heq Hnone]].
  - left. exists k. apply elem_of_sorted_items in Hin. split; [| assumption].
    split; [by eexists |]. split; [assumption |].
    intros k' [v' Hv'] Hq. apply (Hmax k' v'); [| assumption].
    by apply elem_of_sorted_items.
  - right. split; [| assumption]. intros k' [v' Hv'].
    apply (Hnone k' v'). by apply elem_of_sorted_items.
Qed.

Lemma no_tier_applied_discount tiers q :
  no_tier_qualifies tiers q → applied_discount tiers q = 0.
Proof.
  intros Hnone.
  destruct (applied_discount_resolves tiers q) as [(k & (Hk & Hq & _) & _) | [_ H]];
    [| assumption].
  specialize (Hnone k Hk). lia.
Qed.

Lemma multi_lookup_inv m mat t st qs rate tiers oh pm add inc l results q e :
  calculate_multi_quantity_prices m mat t st qs rate tiers oh pm add inc l
    = Ok results →
  results !! q = Some e →
  q ∈ qs ∧
  quantity_entry m mat t st (setup_rate_of m rate) (tiers_of tiers)
    oh pm add inc l q = Ok e.
Proof.
  unfold calculate_multi_quantity_prices. cbv zeta.
  fold (setup_rate_of m rate). fold (tiers_of tiers).
  intros H Hq. rewrite (quantities_loop_lookup _ _ _ _ _ _ _ _ _ _ _ _ _ _ q H) in Hq.
  destruct (decide (q ∈ qs)) as [Hin|Hin].
  - split; [assumption |]. destruct (quantity_entry _ _ _ _ _ _ _ _ _ _ _ q); congruence.
  - by rewrite lookup_empty in Hq.
Qed.

(** C3. The applied discount of every quantity is the discount of the
    highest tier whose threshold is at most the quantity, and 0 when no tier
    qualifies (in particular when there are no tiers); in that case the
    discounted material cost is the material cost unchanged.  With the tiers
    10:5, 50:10, 100:15 the quantity 75 gets the discount 10. *)
Theorem discount_resolution :
  (∀ tiers q, resolves_to tiers q (applied_discount tiers q)) ∧
  (∀ m mat t st qs rate tiers oh pm add inc l results q e,
     calculate_multi_quantity_prices m mat t st qs rate tiers oh pm add inc l
       = Ok results →
     results !! q = Some e →
     Quantity.material_discount_percentage e
       = applied_discount (tiers_of tiers) q ∧
     (no_tier_qualifies (tiers_of tiers) q →
      Quantity.material_discount_percentage e = 0 ∧
      Quantity.discounted_material_cost e = mat)) ∧
  (∃ results e,
     calculate_multi_quantity_prices 60 2 6 30 [75%Z] None (Some example_tiers)
       20 25 0 false 0 = Ok results ∧
     results !! 75%Z = Some e ∧
     Quantity.material_discount_percentage e = 10).
Proof.
  split; [exact applied_discount_resolves |]. split.
  - intros m mat t st qs rate tiers oh pm add inc l results q e H Hq.
    destruct (multi_lookup_inv _ _ _ _ _ _ _ _ _ _ _ _ _ _ _ H Hq) as [_ He].
    apply quantity_entry_inv in He as (_ & r & _ & ->).
    cbn [Quantity.material_discount_percentage Quantity.discounted_material_cost].
    split; [reflexivity |]. intros Hnone.
    rewrite (no_tier_applied_discount _ _ Hnone). split; reflexivity.
  - eexists _, _. split; [vm_compute; reflexivity |].
    split; [vm_compute; reflexivity | reflexivity].
Qed.

Lemma discount_resolution_witness :
  ∃ results e,
    calculate_multi_quantity_prices 60 2 6 30 [5%Z] None (Some example_tiers)
      20 25 0 false 0 = Ok results ∧
    results !! 5%Z = Some e ∧
    no_tier_qualifies example_tiers 5 ∧
    Quantity.material_discount_percentage e = 0 ∧
    Quantity.discounted_material_cost e = 2.
Proof.
  eexists _, _. split; [vm_compute; reflexivity |].
  split; [vm_compute; reflexivity |].
  assert (Hnone : no_tier_qualifies example_tiers 5).
  { intros k [v Hk]. unfold example_tiers in Hk.
    repeat (apply lookup_insert_Some in Hk as [[<- _] | [_ Hk]]; [lia |]).
    apply lookup_singleton_Some in Hk as [<- _]. lia. }
  split; [exact Hnone |].
  refine (proj2 (proj1 (proj2 discount_resolution)
    60 2 6 30 [5%Z] None (Some example_tiers) 20 25 0 false 0 _ 5%Z _ _ _) Hnone);
    vm_compute; reflexivity.
Defined.

(** ** Setup amortization *)

Lemma inject_Z_pos (q : Z) : (0 < q)%Z → 0 < inject_Z q.
Proof. intros H. change 0 with (inject_Z 0). by rewrite <- Zlt_Qlt. Qed.

Lemma amortized_lt (c : Q) (q1 q2 : Z) :
  0 < c → (0 < q1 < q2)%Z → c / inject_Z q2 < c / inject_Z q1.
Proof.
  intros Hc [H1 H12]. unfold Qdiv. apply Qmult_lt_l; [assumption |].
  assert (Hp1 : 0 < inject_Z q1) by (by apply inject_Z_pos).
  assert (Hp2 : 0 < inject_Z q2) by (apply inject_Z_pos; lia).
  apply (proj1 (Qinv_lt_contravar _ _ Hp1 Hp2)). by rewrite <- Zlt_Qlt.
Qed.

Lemma amortized_zero (c : Q) (q : Z) : c == 0 → c / inject_Z q == 0.
Proof. intros ->. unfold Qdiv. apply Qmult_0_l. Qed.

(** C4, the claim as it is written fails: with a setup time of 0 minutes the
    setup cost is 0, and the quantities 1 and 2 both get a setup cost per
    piece of 0, so there is no strict decrease. *)
Lemma setup_cost_zero_not_strict :
  ¬ (∀ m mat t st qs rate tiers oh pm add inc l results q1 q2 e1 e2,
       0 <= st →
       (0 < q1 < q2)%Z →
       calculate_multi_quantity_prices m mat t st qs rate tiers oh pm add inc l
         = Ok results →
       results !! q1 = Some e1 →
       results !! q2 = Some e2 →
       Quantity.setup_cost_per_piece e2 < Quantity.setup_cost_per_piece e1).
Proof.
  intros H.
  pose (e := λ q : Z, quantity_entry 60 2 6 0 60 ∅ 20 25 0 false 0 q).
  destruct (e 1%Z) as [e1|] eqn:He1; [| vm_compute in He1; discriminate].
  destruct (e 2%Z) as [e2|] eqn:He2; [| vm_compute in He2; discriminate].
  specialize (H 60 2 6 0 [1%Z; 2%Z] None None 20 25 0 false 0
                (<[2%Z := e2]> (<[1%Z := e1]> ∅)) 1%Z 2%Z e1 e2).
  assert (Hlt : Quantity.setup_cost_per_piece e2 < Quantity.setup_cost_per_piece e1).
  { apply H.
    - discriminate.
    - lia.
    - unfold calculate_multi_quantity_prices. cbn [quantities_loop].
      unfold e in He1, He2. rewrite He1, bind_Ok, He2, bind_Ok. reflexivity.
    - rewrite lookup_insert_ne by lia. apply lookup_insert_eq.
    - apply lookup_insert_eq. }
  vm_compute in He1, He2. injection He1 as <-. injection He2 as <-.
  vm_compute in Hlt. discriminate.
Qed.

(** C4, amended. For quantities [0 < q1 < q2] the setup cost per piece of
    [q2] is strictly smaller than that of [q1] whenever the setup cost (the
    setup rate times the setup hours) is positive; when the setup cost is
    zero both are zero. *)
Theorem setup_cost_per_piece_decreases
    m mat t st qs rate tiers oh pm add inc l results q1 q2 e1 e2 :
  (0 < q1 < q2)%Z →
  calculate_multi_quantity_prices m mat t st qs rate tiers oh pm add inc l
    = Ok results →
  results !! q1 = Some e1 →
  results !! q2 = Some e2 →
  (0 < setup_cost_of (setup_rate_of m rate) st →
   Quantity.setup_cost_per_piece e2 < Quantity.setup_cost_per_piece e1) ∧
  (setup_cost_of (setup_rate_of m rate) st == 0 →
   Quantity.setup_cost_per_piece e1 == 0 ∧
   Quantity.setup_cost_per_piece e2 == 0).
Proof.
  intros Hq H H1 H2.
  destruct (multi_lookup_inv _ _ _ _ _ _ _ _ _ _ _ _ _ _ _ H H1) as [_ He1].
  destruct (multi_lookup_inv _ _ _ _ _ _ _ _ _ _ _ _ _ _ _ H H2) as [_ He2].
  apply quantity_entry_inv in He1 as (_ & r1 & _ & ->).
  apply quantity_entry_inv in He2 as (_ & r2 & _ & ->).
  cbn [Quantity.setup_cost_per_piece]. split.
  - intros Hc. by apply amortized_lt.
  - intros Hc. split; by apply amortized_zero.
Qed.

Lemma setup_cost_per_piece_decreases_witness :
  ∃ results e1 e2,
    calculate_multi_quantity_prices 60 2 6 30 [1%Z; 10%Z] None None
      20 25 0 false 0 = Ok results ∧
    results !! 1%Z = Some e1 ∧ results !! 10%Z = Some e2 ∧
    0 < setup_cost_of (setup_rate_of 60 None) 30 ∧
    Quantity.setup_cost_per_piece e2 < Quantity.setup_cost_per_piece e1.
Proof.
  eexists _, _, _. split; [vm_compute; reflexivity |].
  split; [vm_compute; reflexivity |]. split; [vm_compute; reflexivity |].
  split; [vm_compute; reflexivity |].
  refine (proj1 (setup_cost_per_piece_decreases 60 2 6 30 [1%Z; 10%Z] None None
    20 25 0 false 0 _ 1%Z 10%Z _ _ _ _ _ _) _);
    [lia | vm_compute; reflexivity .. ].
Defined.

(** C6. Every entry of the multi-quantity result reports the discount that
    the tiers give its quantity; its discounted material cost is the material
    cost lowered by that discount (unchanged when the discount is not
    positive); its setup cost per piece is the setup cost divided by the
    quantity; its base result is the record of the single-quantity engine run
    on that discounted material cost with the quantity as batch size; its
    price per piece is that record's price per piece plus the setup cost per
    piece, and its total cost is its price per piece times the quantity.  In
    the example (rate 60, material 2, 6 minutes, 20 and 25 percent, 30
    minutes of setup, no tiers, quantity 10) the setup cost is 30, the setup
    cost per piece 3, the price per piece 15 and the total cost 150.  With
    the tiers 10:5, 50:10, 100:15 and quantity 75 the discount is 10, the
    discounted material cost 1.8, the base price 11.7, the setup cost per
    piece 0.4, the price per piece 12.1 and the total cost 907.5. *)
Theorem multi_quantity_price :
  (∀ m mat t st qs rate tiers oh pm add inc l results q e,
     calculate_multi_quantity_prices m mat t st qs rate tiers oh pm add inc l
       = Ok results →
     results !! q = Some e →
     let d := Quantity.material_discount_percentage e in
     let discounted := if decide (0 < d) then mat * (1 - d / 100) else mat in
     resolves_to (tiers_of tiers) q d ∧
     d = applied_discount (tiers_of tiers) q ∧
     Quantity.discounted_material_cost e = discounted ∧
     Quantity.setup_cost_per_piece e
       = setup_cost_of (setup_rate_of m rate) st / inject_Z q ∧
     calculate_price m discounted t l oh pm add q inc
       = Ok (Quantity.base_result e) ∧
     calculate_price m (Quantity.discounted_material_cost e) t l oh pm add q inc
       = Ok (Quantity.base_result e) ∧
     price_per_piece (Quantity.base_result e)
       = price_of m discounted t l oh pm add inc ∧
     Quantity.price_per_piece e
       = price_per_piece (Quantity.base_result e)
         + Quantity.setup_cost_per_piece e ∧
     Quantity.total_cost e = Quantity.price_per_piece e * inject_Z q) ∧
  (∃ results e,
     calculate_multi_quantity_prices 60 2 6 30 [10%Z] None None 20 25 0 false 0
       = Ok results ∧
     results !! 10%Z = Some e ∧
     setup_cost_of (setup_rate_of 60 None) 30 == 30 ∧
     Quantity.setup_cost_per_piece e
       = setup_cost_of (setup_rate_of 60 None) 30 / inject_Z 10 ∧
     Quantity.setup_cost_per_piece e == 3 ∧
     price_per_piece (Quantity.base_result e) == 12 ∧
     Quantity.price_per_piece e == 15 ∧
     Quantity.total_cost e == 150) ∧
  (∃ results e,
     calculate_multi_quantity_prices 60 2 6 30 [75%Z] None (Some example_tiers)
       20 25 0 false 0 = Ok results ∧
     results !! 75%Z = Some e ∧
     Quantity.material_discount_percentage e == 10 ∧
     Quantity.discounted_material_cost e == 1.8 ∧
     material_cost_per_piece (Quantity.base_result e) == 1.8 ∧
     price_per_piece (Quantity.base_result e) == 11.7 ∧
     Quantity.setup_cost_per_piece e == 0.4 ∧
     Quantity.price_per_piece e == 12.1 ∧
     Quantity.total_cost e == 907.5).
Proof.
  split; [| split].
  - intros m mat t st qs rate tiers oh pm add inc l results q e H Hq.
    destruct (multi_lookup_inv _ _ _ _ _ _ _ _ _ _ _ _ _ _ _ H Hq) as [_ He].
    apply quantity_entry_inv in He as (_ & r & Hr & ->).
    cbn [Quantity.discounted_material_cost Quantity.base_result
         Quantity.price_per_piece Quantity.setup_cost_per_piece
         Quantity.total_cost Quantity.material_discount_percentage].
    cbv zeta.
    change (if decide (0 < applied_discount (tiers_of tiers) q)
            then mat * (1 - applied_discount (tiers_of tiers) q / 100)
            else mat)
      with (discounted_cost_of mat (applied_discount (tiers_of tiers) q)).
    split; [apply applied_discount_resolves |].
    split; [reflexivity |]. split; [reflexivity |]. split; [reflexivity |].
    split; [exact Hr |]. split; [exact Hr |].
    split; [| split; reflexivity].
    clear H Hq. revert Hr.
    generalize (discounted_cost_of mat (applied_discount (tiers_of tiers) q)).
    intros dm. price_cases H0; [discriminate |]. by intros [= <-].
  - eexists _, _. split; [vm_compute; reflexivity |].
    split; [vm_compute; reflexivity |].
    repeat split; vm_compute; reflexivity.
  - eexists _, _. split; [vm_compute; reflexivity |].
    split; [vm_compute; reflexivity |].
    repeat split; vm_compute; reflexivity.
Qed.

Lemma multi_quantity_price_witness :
  ∃ results e,
    calculate_multi_quantity_prices 60 2 6 30 [75%Z] None (Some example_tiers)
      20 25 0 false 0 = Ok results ∧
    results !! 75%Z = Some e ∧
    Quantity.discounted_material_cost e
      = (if decide (0 < Quantity.material_discount_percentage e)
         then 2 * (1 - Quantity.material_discount_percentage e / 100)
         else 2) ∧
    Quantity.discounted_material_cost e == 1.8 ∧
    price_per_piece (Quantity.base_result e)
      = price_of 60 (Quantity.discounted_material_cost e) 6 0 20 25 0 false ∧
    Quantity.price_per_piece e
      = price_per_piece (Quantity.base_result e)
        + Quantity.setup_cost_per_piece e ∧
    Quantity.total_cost e = Quantity.price_per_piece e * inject_Z 75.
Proof.
  eexists _, _. split; [vm_compute; reflexivity |].
  split; [vm_compute; reflexivity |].
  destruct (proj1 multi_quantity_price
    60 2 6 30 [75%Z] None (Some example_tiers) 20 25 0 false 0 _ 75%Z _
    eq_refl eq_refl) as (_ & _ & Hdm & _ & _ & _ & Hbase & Hprice & Htotal).
  cbv zeta in Hdm, Hbase.
  split; [exact Hdm |]. split; [vm_compute; reflexivity |].
  split; [exact Hbase |]. split; [exact Hprice | exact Htotal].
Defined.

(** ** Labor cost and the shape of the result dictionary *)

Lemma quantity_entry_labor m mat t st rate tiers oh pm add l1 l2 q :
  quantity_entry m mat t st rate tiers oh pm add false l1 q
  = quantity_entry m mat t st rate tiers oh pm add false l2 q.
Proof. reflexivity. Qed.

Lemma quantities_loop_labor m mat t st rate tiers oh pm add l1 l2 qs results :
  quantities_loop m mat t st rate tiers oh pm add false l1 qs results
  = quantities_loop m mat t st rate tiers oh pm add false l2 qs results.
Proof.
  revert results. induction qs as [|q qs IH]; intros results; [reflexivity |].
  cbn [quantities_loop]. rewrite (quantity_entry_labor _ _ _ _ _ _ _ _ _ l1 l2).
  destruct (quantity_entry _ _ _ _ _ _ _ _ _ _ _ q) as [e|ex]; [| reflexivity].
  rewrite !bind_Ok. apply IH.
Qed.

(** C9. With [include_labor_cost] false, two runs that differ only in
    [labor_cost_per_hour] have the same outcome, for [calculate_price] and
    for [calculate_multi_quantity_prices]; a returned record has a labor cost
    per piece of 0 and a labor cost percentage of 0. *)
Theorem labor_cost_ignored m mat t oh pm add b l1 l2 :
  calculate_price m mat t l1 oh pm add b false
    = calculate_price m mat t l2 oh pm add b false ∧
  (∀ r, calculate_price m mat t l1 oh pm add b false = Ok r →
        labor_cost_per_piece r = 0 ∧ labor_cost_percentage r == 0) ∧
  (∀ st qs rate tiers,
     calculate_multi_quantity_prices m mat t st qs rate tiers oh pm add false l1
     = calculate_multi_quantity_prices m mat t st qs rate tiers oh pm add false l2).
Proof.
  split; [reflexivity |]. split.
  - intros r. price_cases H0; [discriminate |]. intros [= <-].
    cbn [labor_cost_per_piece labor_cost_percentage].
    split; [reflexivity |]. unfold Qdiv. ring.
  - intros st qs rate tiers. apply quantities_loop_labor.
Qed.

Lemma labor_cost_ignored_witness :
  ∃ r, calculate_price 60 2 6 35 20 25 0 1 false = Ok r ∧
       calculate_price 60 2 6 0 20 25 0 1 false = Ok r ∧
       labor_cost_per_piece r = 0 ∧ labor_cost_percentage r == 0.
Proof.
  eexists. split; [vm_compute; reflexivity |].
  split; [vm_compute; reflexivity |].
  apply (proj1 (proj2 (labor_cost_ignored 60 2 6 20 25 0 1 35 0))).
  vm_compute; reflexivity.
Defined.

(** C10. For a list of positive quantities the call returns a dictionary
    whenever the price of a piece is not zero for any of them, and exactly
    when it returns one for each quantity of the list asked alone;
    the keys of the dictionary are the quantities of the list, and the entry
    of each quantity is the entry of the call with that quantity alone, so
    that a quantity listed twice has one entry. *)
Theorem multi_quantity_pointwise m mat t st qs rate tiers oh pm add inc l :
  Forall (λ q, 0 < q)%Z qs →
  ((∀ q, q ∈ qs →
      ¬ price_of m
          (discounted_cost_of mat (applied_discount (tiers_of tiers) q))
          t l oh pm add inc == 0) →
   ∃ results,
     calculate_multi_quantity_prices m mat t st qs rate tiers oh pm add inc l
       = Ok results) ∧
  ((∃ results,
      calculate_multi_quantity_prices m mat t st qs rate tiers oh pm add inc l
        = Ok results) ↔
   (∀ q, q ∈ qs →
      ∃ single,
        calculate_multi_quantity_prices m mat t st [q] rate tiers oh pm add inc l
          = Ok single)) ∧
  (∀ results,
     calculate_multi_quantity_prices m mat t st qs rate tiers oh pm add inc l
       = Ok results →
     dom results = list_to_set qs ∧
     ∀ q, q ∈ qs →
       ∃ single e,
         calculate_multi_quantity_prices m mat t st [q] rate tiers oh pm add inc l
           = Ok single ∧
         dom single = {[ q ]} ∧
         single !! q = Some e ∧
         results !! q = Some e).
Proof.
  intros Hpos. unfold calculate_multi_quantity_prices, tiers_of. cbv zeta.
  set (r := match rate with None => m | Some x => x end).
  set (ts := match tiers with None => ∅ | Some x => x end).
  split.
  { intros Hprice. apply quantities_loop_Ok. intros q Hq.
    apply quantity_entry_Ok; [| by apply Hprice].
    rewrite Forall_forall in Hpos. specialize (Hpos q Hq). lia. }
  assert (Hsingle : ∀ q e,
    quantity_entry m mat t st r ts oh pm add inc l q = Ok e →
    quantities_loop m mat t st r ts oh pm add inc l [q] ∅ = Ok {[ q := e ]}).
  { intros q e He. cbn [quantities_loop]. rewrite He. reflexivity. }
  split; [split |].
  - intros [results H] q Hq.
    destruct (quantities_loop_inv _ _ _ _ _ _ _ _ _ _ _ _ _ _ q H Hq) as [e He].
    eauto.
  - intros H. apply quantities_loop_Ok. intros q Hq.
    destruct (H q Hq) as [single Hs].
    apply (quantities_loop_inv _ _ _ _ _ _ _ _ _ _ _ _ _ _ q Hs).
    apply list_elem_of_here.
  - intros results H. split.
    + rewrite (quantities_loop_dom _ _ _ _ _ _ _ _ _ _ _ _ _ _ H), dom_empty_L.
      apply (right_id_L ∅ (∪)).
    + intros q Hq.
      destruct (quantities_loop_inv _ _ _ _ _ _ _ _ _ _ _ _ _ _ q H Hq) as [e He].
      exists {[ q := e ]}, e. split; [by apply Hsingle |].
      split; [apply dom_singleton_L |]. split; [apply lookup_singleton_eq |].
      rewrite (quantities_loop_lookup _ _ _ _ _ _ _ _ _ _ _ _ _ _ q H).
      rewrite decide_True by assumption. by rewrite He.
Qed.

Lemma multi_quantity_pointwise_witness :
  ∃ results,
    calculate_multi_quantity_prices 60 2 6 30 [10%Z; 5%Z; 10%Z] None
      (Some example_tiers) 20 25 0 false 0 = Ok results ∧
    dom results = list_to_set [10%Z; 5%Z; 10%Z] ∧
    ∀ q, q ∈ [10%Z; 5%Z; 10%Z] →
      ∃ single e,
        calculate_multi_quantity_prices 60 2 6 30 [q] None
          (Some example_tiers) 20 25 0 false 0 = Ok single ∧
        dom single = {[ q ]} ∧
        single !! q = Some e ∧
        results !! q = Some e.
Proof.
  eexists. split; [vm_compute; reflexivity |].
  refine (proj2 (proj2 (multi_quantity_pointwise 60 2 6 30 [10%Z; 5%Z; 10%Z] None
    (Some example_tiers) 20 25 0 false 0 _)) _ _).
  - repeat constructor.
  - vm_compute; reflexivity.
Defined.

(** ** The validator *)

(** C5. [validate_inputs] makes its seven checks in the order machine cost,
    material cost, production time, labor cost, overhead percentage, profit
    margin percentage, batch size, and answers with the reason of the first
    one that fails; it answers [(True, "Inputs valid")] exactly when all
    seven hold; the reasons are pairwise different, and different from the
    message of success. *)
Theorem validate_inputs_order m mat t l oh pm b :
  validate_inputs m mat t l oh pm b
    = first_failure (validation_checks m mat t l oh pm b) ∧
  (validate_inputs m mat t l oh pm b = (true, "Inputs valid") ↔
   0 <= m ∧ 0 <= mat ∧ 0 < t ∧ 0 <= l ∧ (0 <= oh ∧ oh <= 100) ∧
   (0 <= pm ∧ pm <= 100) ∧ (0 < b)%Z) ∧
  ((validate_inputs m mat t l oh pm b).1 = true ↔
   validate_inputs m mat t l oh pm b = (true, "Inputs valid")) ∧
  NoDup ("Inputs valid" :: (validation_checks m mat t l oh pm b).*2) ∧
  validate_inputs (-1) 2 6 0 20 25 1
    = (false, "Machine cost per hour cannot be negative.") ∧
  validate_inputs 60 2 0 0 20 25 1
    = (false, "Production time must be greater than zero.") ∧
  validate_inputs 60 2 6 0 101 25 1
    = (false, "Overhead percentage must be between 0 and 100.") ∧
  validate_inputs 60 2 6 0 20 25 0
    = (false, "Batch size must be greater than zero.").
Proof.
  split; [| split; [| split; [| split]]].
  - unfold validate_inputs, validation_checks.
    repeat case_decide; repeat case_bool_decide; cbn [first_failure];
      try reflexivity; exfalso; try lra; try lia.
  - unfold validate_inputs.
    repeat case_decide; (split; [intros [=] | intros ?]); try reflexivity;
      try (exfalso; lra); try (exfalso; lia).
    repeat split; try lra; lia.
  - unfold validate_inputs.
    repeat case_decide; cbn [fst]; split; intros Hv; try reflexivity; discriminate Hv.
  - cbn [validation_checks fmap list_fmap snd].
    apply (bool_decide_unpack _). vm_compute. exact I.
  - repeat split; vm_compute; reflexivity.
Qed.

(** * Further properties of the engines *)

(** ** The breakdown of a price *)

Lemma price_of_direct m mat t l oh pm add inc :
  price_of m mat t l oh pm add inc
  == direct_of m mat t l add inc * (1 + oh / 100) * (1 + pm / 100).
Proof. unfold price_of, direct_of. cbv zeta. field. Qed.

Lemma accepted_ranges m mat t l oh pm b :
  accepted m mat t l oh pm b →
  0 <= m ∧ 0 <= mat ∧ 0 < t ∧ 0 <= l ∧ 0 <= oh ∧ oh <= 100 ∧
  0 <= pm ∧ pm <= 100 ∧ (0 < b)%Z.
Proof.
  unfold accepted, validate_inputs.
  repeat case_decide; intros [=]. repeat split; try lra; lia.
Qed.

(** X1. The base cost percentage is the sum of the five cost shares, and with
    the profit percentage it makes 100: the seventh percentage repeats the
    others.  This holds for every returned record, also one with a negative
    price. *)
Theorem base_percentage_is_cost_share m mat t l oh pm add b inc r :
  calculate_price m mat t l oh pm add b inc = Ok r →
  base_cost_percentage r
  == machine_cost_percentage r + labor_cost_percentage r
     + material_cost_percentage r + additional_material_cost_percentage r
     + overhead_cost_percentage r ∧
  base_cost_percentage r + profit_percentage r == 100.
Proof.
  unfold calculate_price; cbv zeta.
  match goal with |- context [truediv _ ?p] => set (price := p) end.
  unfold truediv. destruct (decide (price == 0)) as [H0|H0]; [discriminate |].
  rewrite !bind_Ok. intros [= <-].
  cbn [machine_cost_percentage labor_cost_percentage
       material_cost_percentage additional_material_cost_percentage
       overhead_cost_percentage base_cost_percentage profit_percentage].
  set (labor := if inc then _ else _) in *.
  assert (Hp : price == price) by reflexivity.
  unfold price at 2 in Hp. clearbody price. split.
  - field. exact H0.
  - field_simplify_eq; [| exact H0]. rewrite Hp. field.
Qed.

Lemma base_percentage_is_cost_share_witness :
  ∃ r, calculate_price 60 2 6 0 20 25 0 1 false = Ok r ∧
       base_cost_percentage r + profit_percentage r == 100.
Proof.
  eexists. split; [vm_compute; reflexivity |].
  apply (base_percentage_is_cost_share 60 2 6 0 20 25 0 1 false).
  vm_compute; reflexivity.
Defined.

(** Every field of a returned record, in terms of the inputs. *)
Lemma calculate_price_fields m mat t l oh pm add b inc r :
  calculate_price m mat t l oh pm add b inc = Ok r →
  ¬ price_of m mat t l oh pm add inc == 0 ∧
  r = {| machine_cost_per_piece := m * (t / 60);
         labor_cost_per_piece := if inc then l * (t / 60) else 0;
         material_cost_per_piece := mat;
         additional_material_cost := add;
         direct_cost_per_piece := direct_of m mat t l add inc;
         overhead_cost_per_piece := direct_of m mat t l add inc * (oh / 100);
         base_cost_per_piece :=
           direct_of m mat t l add inc
           + direct_of m mat t l add inc * (oh / 100);
         profit_per_piece :=
           (direct_of m mat t l add inc
            + direct_of m mat t l add inc * (oh / 100)) * (pm / 100);
         price_per_piece := price_of m mat t l oh pm add inc;
         total_batch_cost := price_of m mat t l oh pm add inc * inject_Z b;
         machine_cost_percentage :=
           m * (t / 60) / price_of m mat t l oh pm add inc * 100;
         material_cost_percentage :=
           mat / price_of m mat t l oh pm add inc * 100;
         additional_material_cost_percentage :=
           add / price_of m mat t l oh pm add inc * 100;
         labor_cost_percentage :=
           (if inc then l * (t / 60) else 0)
           / price_of m mat t l oh pm add inc * 100;
         overhead_cost_percentage :=
           direct_of m mat t l add inc * (oh / 100)
           / price_of m mat t l oh pm add inc * 100;
         base_cost_percentage :=
           (direct_of m mat t l add inc
            + direct_of m mat t l add inc * (oh / 100))
           / price_of m mat t l oh pm add inc * 100;
         profit_percentage :=
           (direct_of m mat t l add inc
            + direct_of m mat t l add inc * (oh / 100)) * (pm / 100)
           / price_of m mat t l oh pm add inc * 100 |}.
Proof.
  price_cases H0; [discriminate |].
  intros [= <-]. split; [assumption | reflexivity].
Qed.

(** X2. The shares of profit and of overhead in the price are fixed by the two
    percentages alone: a margin of [pm] percent on the base cost is
    [100 * pm / (100 + pm)] percent of the price, whatever the costs are. *)
Theorem profit_share_fixed_by_margin m mat t l oh pm add b inc r :
  calculate_price m mat t l oh pm add b inc = Ok r →
  profit_percentage r == 100 * pm / (100 + pm) ∧
  overhead_cost_percentage r == 10000 * oh / ((100 + oh) * (100 + pm)).
Proof.
  intros H. apply calculate_price_fields in H as [Hp ->].
  cbn [profit_percentage overhead_cost_percentage].
  rewrite price_of_direct in Hp |- *.
  set (d := direct_of m mat t l add inc) in *.
  assert (Hd : ¬ d == 0) by (intros E; apply Hp; rewrite E; ring).
  assert (Hoh : ¬ 100 + oh == 0).
  { intros E. apply Hp. assert (E' : 1 + oh / 100 == (100 + oh) * (1 / 100)) by field.
    rewrite E', E. ring. }
  assert (Hpm : ¬ 100 + pm == 0).
  { intros E. apply Hp. assert (E' : 1 + pm / 100 == (100 + pm) * (1 / 100)) by field.
    rewrite E', E. ring. }
  split; field; repeat split; try assumption.
  all: intros E; first [apply Hoh | apply Hpm]; rewrite <- E; ring.
Qed.

Lemma profit_share_fixed_by_margin_witness :
  ∃ r, calculate_price 60 2 6 0 20 25 0 1 false = Ok r ∧
       profit_percentage r == 20.
Proof.
  eexists. split; [vm_compute; reflexivity |].
  rewrite (proj1 (profit_share_fixed_by_margin 60 2 6 0 20 25 0 1 false _ eq_refl)).
  vm_compute; reflexivity.
Defined.

(** ** What the validator guarantees to the engine *)

Lemma hours_pos t : 0 < t → 0 < t / 60.
Proof. intros Ht. apply Qlt_shift_div_l; lra. Qed.

Lemma markup_pos x : 0 <= x → 1 <= 1 + x / 100.
Proof.
  intros Hx. assert (0 <= x / 100); [| lra].
  apply Qle_shift_div_l; lra.
Qed.

Lemma labor_part_nonneg (inc : bool) l h :
  0 <= l → 0 < h → 0 <= (if inc then l * h else 0).
Proof. intros Hl Hh. destruct inc; [nra | lra]. Qed.

Lemma direct_of_nonneg m mat t l add inc :
  0 <= m → 0 <= mat → 0 < t → 0 <= l → 0 <= add →
  0 <= direct_of m mat t l add inc.
Proof.
  intros Hm Hmat Ht Hl Hadd. unfold direct_of.
  pose proof (hours_pos t Ht) as Hh.
  pose proof (labor_part_nonneg inc l _ Hl Hh).
  assert (0 <= m * (t / 60)) by nra. lra.
Qed.

Lemma direct_of_zero_iff m mat t l add inc :
  0 <= m → 0 <= mat → 0 < t → 0 <= l → 0 <= add →
  direct_of m mat t l add inc == 0 ↔
  m == 0 ∧ mat == 0 ∧ add == 0 ∧ (inc = false ∨ l == 0).
Proof.
  intros Hm Hmat Ht Hl Hadd. unfold direct_of.
  pose proof (hours_pos t Ht) as Hh. set (h := t / 60) in *.
  pose proof (labor_part_nonneg inc l _ Hl Hh) as Hlab.
  assert (Hmh : 0 <= m * h) by nra. split.
  - intros E.
    assert (Em : m * h == 0) by lra.
    assert (El : (if inc then l * h else 0) == 0) by lra.
    split; [nra |]. split; [lra |]. split; [lra |].
    destruct inc; [right; nra | by left].
  - intros (Em & Emat & Eadd & [-> | El]).
    + rewrite Em, Emat, Eadd. ring.
    + rewrite Em, Emat, Eadd. destruct inc; [rewrite El |]; ring.
Qed.

Lemma price_of_pos m mat t l oh pm add inc :
  0 < direct_of m mat t l add inc → 0 <= oh → 0 <= pm →
  0 < price_of m mat t l oh pm add inc.
Proof.
  intros Hd Hoh Hpm. rewrite price_of_direct.
  pose proof (markup_pos oh Hoh). pose proof (markup_pos pm Hpm).
  set (d := direct_of _ _ _ _ _ _) in *.
  assert (0 < d * (1 + oh / 100)) by nra. nra.
Qed.

(** X3. On an input that [validate_inputs] accepts, with a nonnegative
    additional material cost, [calculate_price] raises exactly when there is
    nothing to pay for: machine rate, material cost and additional material
    cost are zero, and labor is left out or costs nothing.  In every other
    case it returns a record with a positive price. *)
Theorem accepted_price_raises_iff m mat t l oh pm add b inc :
  accepted m mat t l oh pm b → 0 <= add →
  (calculate_price m mat t l oh pm add b inc = Raise ZeroDivisionError ↔
   m == 0 ∧ mat == 0 ∧ add == 0 ∧ (inc = false ∨ l == 0)) ∧
  (∀ r, calculate_price m mat t l oh pm add b inc = Ok r →
        0 < price_per_piece r).
Proof.
  intros Hacc Hadd.
  apply accepted_ranges in Hacc as (Hm & Hmat & Ht & Hl & Hoh & _ & Hpm & _ & _).
  pose proof (direct_of_nonneg m mat t l add inc Hm Hmat Ht Hl Hadd) as Hd.
  pose proof (direct_of_zero_iff m mat t l add inc Hm Hmat Ht Hl Hadd) as Hz.
  assert (Hpos : ¬ direct_of m mat t l add inc == 0 →
                 0 < price_of m mat t l oh pm add inc).
  { intros Hne. apply price_of_pos; [| assumption ..].
    destruct (Qlt_le_dec 0 (direct_of m mat t l add inc)) as [|Hle]; [assumption |].
    exfalso. apply Hne. lra. }
  split; [split |].
  - intros Hr. apply Hz.
    destruct (decide (direct_of m mat t l add inc == 0)) as [|Hne]; [assumption |].
    destruct (calculate_price_Ok m mat t l oh pm add b inc) as [r Hok].
    + specialize (Hpos Hne). lra.
    + congruence.
  - intros Hzero. apply calculate_price_Raise.
    rewrite price_of_direct. rewrite (proj2 Hz Hzero). ring.
  - intros r Hr. apply calculate_price_fields in Hr as [Hp ->].
    cbn [price_per_piece]. apply Hpos. intros E. apply Hp.
    rewrite price_of_direct, E. ring.
Qed.

Lemma accepted_price_raises_iff_witness :
  calculate_price 0 0 6 35 20 25 0 1 false = Raise ZeroDivisionError ∧
  ∀ r, calculate_price 0 0 6 35 20 25 0 1 true = Ok r → 0 < price_per_piece r.
Proof.
  assert (Hacc : accepted 0 0 6 35 20 25 1) by (vm_compute; reflexivity).
  assert (Hadd : 0 <= 0) by (vm_compute; discriminate).
  split.
  - apply (proj1 (accepted_price_raises_iff 0 0 6 35 20 25 0 1 false Hacc Hadd)).
    repeat split; try reflexivity. by left.
  - apply (proj2 (accepted_price_raises_iff 0 0 6 35 20 25 0 1 true Hacc Hadd)).
Defined.

Lemma share_bounds x p :
  0 <= x → x <= p → 0 < p → 0 <= x / p * 100 ∧ x / p * 100 <= 100.
Proof.
  intros Hx Hxp Hp.
  assert (0 <= x / p) by (apply Qle_shift_div_l; lra).
  assert (x / p <= 1) by (apply Qle_shift_div_r; lra).
  split; lra.
Qed.

(** X4. On an accepted input with a nonnegative additional material cost, no
    field of the returned record is negative, the costs are nested (direct
    cost, base cost, price, and the price is at most four times the direct
    cost), and each of the seven percentages lies between 0 and 100. *)
Theorem accepted_result_bounds m mat t l oh pm add b inc r :
  accepted m mat t l oh pm b → 0 <= add →
  calculate_price m mat t l oh pm add b inc = Ok r →
  Forall (λ x, 0 <= x)
    [machine_cost_per_piece r; labor_cost_per_piece r;
     material_cost_per_piece r; additional_material_cost r;
     overhead_cost_per_piece r; profit_per_piece r; total_batch_cost r] ∧
  (direct_cost_per_piece r <= base_cost_per_piece r ∧
   base_cost_per_piece r <= price_per_piece r ∧
   price_per_piece r <= 4 * direct_cost_per_piece r) ∧
  Forall (λ x, 0 <= x ∧ x <= 100)
    [machine_cost_percentage r; labor_cost_percentage r;
     material_cost_percentage r; additional_material_cost_percentage r;
     overhead_cost_percentage r; base_cost_percentage r;
     profit_percentage r].
Proof.
  intros Hacc Hadd Hr.
  apply accepted_ranges in Hacc as (Hm & Hmat & Ht & Hl & Hoh & Hoh' & Hpm & Hpm' & Hb).
  pose proof (direct_of_nonneg m mat t l add inc Hm Hmat Ht Hl Hadd) as Hd.
  apply calculate_price_fields in Hr as [Hp ->].
  assert (Hp' := price_of_direct m mat t l oh pm add inc).
  pose proof (hours_pos t Ht) as Hh.
  pose proof (labor_part_nonneg inc l _ Hl Hh) as Hlab.
  assert (Hparts : direct_of m mat t l add inc
                   == m * (t / 60) + (if inc then l * (t / 60) else 0) + mat + add)
    by reflexivity.
  set (d := direct_of m mat t l add inc) in *.
  set (p := price_of m mat t l oh pm add inc) in *.
  set (lab := if inc then _ else _) in *.
  assert (Hmh : 0 <= m * (t / 60)) by nra.
  set (mh := m * (t / 60)) in *.
  assert (Ho1 : 0 <= oh / 100) by (apply Qle_shift_div_l; lra).
  assert (Ho2 : oh / 100 <= 1) by (apply Qle_shift_div_r; lra).
  assert (Hp1 : 0 <= pm / 100) by (apply Qle_shift_div_l; lra).
  assert (Hp2 : pm / 100 <= 1) by (apply Qle_shift_div_r; lra).
  set (o := oh / 100) in *. set (q := pm / 100) in *.
  assert (Hov : 0 <= d * o) by nra.
  assert (Hov' : d * o <= d) by nra.
  assert (Hpr : 0 <= (d + d * o) * q) by nra.
  assert (Hpr' : (d + d * o) * q <= d + d * o) by nra.
  assert (Hpe : p == d + d * o + (d + d * o) * q) by (rewrite Hp'; ring).
  assert (Hppos : 0 < p).
  { destruct (Qlt_le_dec 0 p) as [|Hle]; [assumption |].
    exfalso. apply Hp. lra. }
  assert (Hbq : 0 <= inject_Z b).
  { change 0 with (inject_Z 0). rewrite <- Zle_Qle. lia. }
  cbn [machine_cost_per_piece labor_cost_per_piece material_cost_per_piece
       additional_material_cost overhead_cost_per_piece profit_per_piece
       total_batch_cost direct_cost_per_piece base_cost_per_piece
       price_per_piece machine_cost_percentage labor_cost_percentage
       material_cost_percentage additional_material_cost_percentage
       overhead_cost_percentage base_cost_percentage profit_percentage].
  split; [| split].
  - repeat constructor; try assumption; try lra. nra.
  - repeat split; lra.
  - repeat constructor; apply share_bounds; lra.
Qed.

Lemma accepted_result_bounds_witness :
  ∃ r, calculate_price 60 2 6 0 20 25 0 1 false = Ok r ∧
       price_per_piece r <= 4 * direct_cost_per_piece r.
Proof.
  eexists. split; [vm_compute; reflexivity |].
  refine (proj2 (proj2 (proj1 (proj2
    (accepted_result_bounds 60 2 6 0 20 25 0 1 false _ _ _ _))))).
  - vm_compute; reflexivity.
  - vm_compute; discriminate.
  - vm_compute; reflexivity.
Defined.

(** ** Scaling the costs, and where labor is counted *)

(** X5. Express every cost input in another unit (multiply the machine rate,
    the labor rate, the material cost and the additional material cost by
    [k]): the call returns whenever the first one does, the price and the
    batch total are multiplied by [k], and the seven percentages stay. *)
Theorem costs_scale k m mat t l oh pm add b inc r :
  ¬ k == 0 →
  calculate_price m mat t l oh pm add b inc = Ok r →
  ∃ r', calculate_price (k * m) (k * mat) t (k * l) oh pm (k * add) b inc
          = Ok r' ∧
        price_per_piece r' == k * price_per_piece r ∧
        total_batch_cost r' == k * total_batch_cost r ∧
        machine_cost_percentage r' == machine_cost_percentage r ∧
        labor_cost_percentage r' == labor_cost_percentage r ∧
        material_cost_percentage r' == material_cost_percentage r ∧
        additional_material_cost_percentage r'
          == additional_material_cost_percentage r ∧
        overhead_cost_percentage r' == overhead_cost_percentage r ∧
        base_cost_percentage r' == base_cost_percentage r ∧
        profit_percentage r' == profit_percentage r.
Proof.
  intros Hk Hr. apply calculate_price_fields in Hr as [Hp ->].
  assert (Hd : direct_of (k * m) (k * mat) t (k * l) (k * add) inc
               == k * direct_of m mat t l add inc).
  { unfold direct_of. destruct inc; ring. }
  assert (Hs : price_of (k * m) (k * mat) t (k * l) oh pm (k * add) inc
               == k * price_of m mat t l oh pm add inc).
  { rewrite !price_of_direct, Hd. ring. }
  assert (Hp' : ¬ price_of (k * m) (k * mat) t (k * l) oh pm (k * add) inc == 0).
  { rewrite Hs. intros E. apply Qmult_integral in E as [E|E]; contradiction. }
  destruct (calculate_price_Ok _ _ _ _ _ _ _ b _ Hp') as [r' Hr'].
  exists r'. split; [assumption |].
  apply calculate_price_fields in Hr' as [_ ->].
  cbn [price_per_piece total_batch_cost machine_cost_percentage
       labor_cost_percentage material_cost_percentage
       additional_material_cost_percentage overhead_cost_percentage
       base_cost_percentage profit_percentage].
  rewrite Hs, Hd. set (p := price_of m mat t l oh pm add inc) in *.
  set (d := direct_of m mat t l add inc) in *.
  repeat split; try (field; split; assumption); try ring.
  destruct inc; field; split; assumption.
Qed.

Lemma costs_scale_witness :
  ∃ r r', calculate_price 60 2 6 0 20 25 0 1 false = Ok r ∧
          calculate_price 6000 200 6 0 20 25 0 1 false = Ok r' ∧
          price_per_piece r' == 100 * price_per_piece r.
Proof.
  eexists _, _. split; [vm_compute; reflexivity |].
  split; [vm_compute; reflexivity |].
  destruct (costs_scale 100 60 2 6 0 20 25 0 1 false _
              ltac:(vm_compute; discriminate) eq_refl) as (r' & Hr' & Hprice & _).
  vm_compute in Hr'. injection Hr' as <-. exact Hprice.
Defined.

Lemma calculate_price_cases m mat t l oh pm add b inc :
  (price_of m mat t l oh pm add inc == 0 ∧
   calculate_price m mat t l oh pm add b inc = Raise ZeroDivisionError) ∨
  (¬ price_of m mat t l oh pm add inc == 0 ∧
   ∃ r, calculate_price m mat t l oh pm add b inc = Ok r).
Proof.
  destruct (decide (price_of m mat t l oh pm add inc == 0)) as [H0|H0].
  - left. split; [assumption | by apply calculate_price_Raise].
  - right. split; [assumption | by apply calculate_price_Ok].
Qed.

(** X6. Labor may be counted in the machine rate (the last summand of
    [calculate_machine_cost_per_hour], with [include_labor_cost] false) or
    passed on its own (with [include_labor_cost] true): both calls raise, or
    both return, with the same direct cost, overhead, base cost, profit,
    price and batch total; the machine cost of the first is the machine cost
    plus the labor cost of the second, in amount and in percent. *)
Theorem labor_folded_or_separate e mn d f o lab mat t oh pm add b l' :
  match calculate_price (calculate_machine_cost_per_hour e mn d f o lab)
          mat t l' oh pm add b false,
        calculate_price (calculate_machine_cost_per_hour e mn d f o 0)
          mat t lab oh pm add b true with
  | Ok r1, Ok r2 =>
      machine_cost_per_piece r1
        == machine_cost_per_piece r2 + labor_cost_per_piece r2 ∧
      machine_cost_percentage r1
        == machine_cost_percentage r2 + labor_cost_percentage r2 ∧
      direct_cost_per_piece r1 == direct_cost_per_piece r2 ∧
      overhead_cost_per_piece r1 == overhead_cost_per_piece r2 ∧
      base_cost_per_piece r1 == base_cost_per_piece r2 ∧
      profit_per_piece r1 == profit_per_piece r2 ∧
      price_per_piece r1 == price_per_piece r2 ∧
      total_batch_cost r1 == total_batch_cost r2
  | Raise e1, Raise e2 => e1 = e2
  | _, _ => False
  end.
Proof.
  set (m1 := calculate_machine_cost_per_hour e mn d f o lab).
  set (m2 := calculate_machine_cost_per_hour e mn d f o 0).
  assert (Hd : direct_of m1 mat t l' add false == direct_of m2 mat t lab add true).
  { unfold direct_of, m1, m2, calculate_machine_cost_per_hour. ring. }
  assert (Hs : price_of m1 mat t l' oh pm add false
               == price_of m2 mat t lab oh pm add true).
  { by rewrite !price_of_direct, Hd. }
  destruct (calculate_price_cases m1 mat t l' oh pm add b false)
    as [[H1 ->] | [H1 [r1 Hr1]]];
  destruct (calculate_price_cases m2 mat t lab oh pm add b true)
    as [[H2 ->] | [H2 [r2 Hr2]]].
  - reflexivity.
  - rewrite Hr2. apply H2. by rewrite <- Hs.
  - rewrite Hr1. apply H1. by rewrite Hs.
  - rewrite Hr1, Hr2.
    apply calculate_price_fields in Hr1 as [_ ->].
    apply calculate_price_fields in Hr2 as [_ ->].
    cbn [machine_cost_per_piece labor_cost_per_piece machine_cost_percentage
         labor_cost_percentage direct_cost_per_piece overhead_cost_per_piece
         base_cost_per_piece profit_per_piece price_per_piece
         total_batch_cost].
    rewrite Hs, Hd.
    set (p := price_of m2 mat t lab oh pm add true) in *.
    unfold m1, m2, calculate_machine_cost_per_hour.
    repeat split; try reflexivity; try ring. field. exact H2.
Qed.

(** ** Setup cost and errors of the multi-quantity engine *)

(** X7. The setup cost is spread over the pieces without loss: the setup cost
    per piece times the quantity is the setup cost, and the total cost of a
    quantity is the batch total of the single-quantity record plus one setup
    cost. *)
Theorem setup_cost_amortized
    m mat t st qs rate tiers oh pm add inc l results q e :
  calculate_multi_quantity_prices m mat t st qs rate tiers oh pm add inc l
    = Ok results →
  results !! q = Some e →
  Quantity.setup_cost_per_piece e * inject_Z q
    == setup_cost_of (setup_rate_of m rate) st ∧
  Quantity.total_cost e
    == total_batch_cost (Quantity.base_result e)
       + setup_cost_of (setup_rate_of m rate) st.
Proof.
  intros H Hq.
  destruct (multi_lookup_inv _ _ _ _ _ _ _ _ _ _ _ _ _ _ _ H Hq) as [_ He].
  apply quantity_entry_inv in He as (Hq0 & r & Hr & ->).
  apply calculate_price_fields in Hr as [_ ->].
  cbn [Quantity.setup_cost_per_piece Quantity.total_cost Quantity.base_result
       total_batch_cost price_per_piece].
  split; field; exact Hq0.
Qed.

Lemma setup_cost_amortized_witness :
  ∃ results e,
    calculate_multi_quantity_prices 60 2 6 30 [7%Z] None None 20 25 0 false 0
      = Ok results ∧
    results !! 7%Z = Some e ∧
    Quantity.setup_cost_per_piece e * inject_Z 7 == 30.
Proof.
  eexists _, _. split; [vm_compute; reflexivity |].
  split; [vm_compute; reflexivity |].
  rewrite (proj1 (setup_cost_amortized 60 2 6 30 [7%Z] None None 20 25 0
                    false 0 _ 7%Z _ eq_refl eq_refl)).
  vm_compute; reflexivity.
Defined.

Lemma inject_Z_zero (q : Z) : inject_Z q == 0 ↔ q = 0%Z.
Proof.
  unfold Qeq. simpl. rewrite Z.mul_1_r. reflexivity.
Qed.

Lemma quantity_entry_Raise m mat t st rate tiers oh pm add inc l q :
  quantity_entry m mat t st rate tiers oh pm add inc l q
    = Raise ZeroDivisionError ↔
  q = 0%Z ∨
  price_of m (discounted_cost_of mat (applied_discount tiers q))
    t l oh pm add inc == 0.
Proof.
  split.
  - intros Hr.
    destruct (decide (q = 0%Z)) as [|Hq]; [by left | right].
    destruct (decide (price_of m (discounted_cost_of mat (applied_discount tiers q))
                        t l oh pm add inc == 0)) as [|Hp]; [assumption |].
    destruct (quantity_entry_Ok m mat t st rate tiers oh pm add inc l q Hq Hp)
      as [e He].
    congruence.
  - intros Hc.
    destruct (quantity_entry m mat t st rate tiers oh pm add inc l q)
      as [e|[]] eqn:He; [| reflexivity].
    apply quantity_entry_inv in He as (Hq0 & r & Hr & _).
    destruct Hc as [-> | Hp].
    + exfalso. apply Hq0. reflexivity.
    + rewrite (calculate_price_Raise _ _ _ _ _ _ _ _ _ Hp) in Hr. discriminate.
Qed.

Lemma quantities_loop_Raise m mat t st rate tiers oh pm add inc l qs results :
  quantities_loop m mat t st rate tiers oh pm add inc l qs results
    = Raise ZeroDivisionError ↔
  ∃ q, q ∈ qs ∧
       quantity_entry m mat t st rate tiers oh pm add inc l q
         = Raise ZeroDivisionError.
Proof.
  revert results. induction qs as [|q0 qs IH]; intros results.
  - split; [discriminate |]. intros (q & Hq & _). by apply elem_of_nil in Hq.
  - cbn [quantities_loop].
    destruct (quantity_entry m mat t st rate tiers oh pm add inc l q0)
      as [e0|[]] eqn:He0.
    + rewrite bind_Ok, IH. split.
      * intros (q & Hq & Hr). exists q. split; [by apply list_elem_of_further | done].
      * intros (q & [-> | Hq]%elem_of_cons & Hr); [congruence | eauto].
    + split; [| reflexivity]. intros _. exists q0.
      split; [apply list_elem_of_here | assumption].
Qed.

Lemma result_cases {A} (x : result A) :
  (∃ a, x = Ok a) ∨ x = Raise ZeroDivisionError.
Proof. destruct x as [a|[]]; eauto. Qed.

Lemma multi_Raise_iff m mat t st qs rate tiers oh pm add inc l :
  calculate_multi_quantity_prices m mat t st qs rate tiers oh pm add inc l
    = Raise ZeroDivisionError ↔
  ∃ q, q ∈ qs ∧
       (q = 0%Z ∨
        price_of m
          (discounted_cost_of mat (applied_discount (tiers_of tiers) q))
          t l oh pm add inc == 0).
Proof.
  unfold calculate_multi_quantity_prices. cbv zeta.
  fold (setup_rate_of m rate). fold (tiers_of tiers).
  rewrite quantities_loop_Raise.
  split; intros (q & Hq & Hr); exists q; (split; [assumption |]).
  - by apply quantity_entry_Raise in Hr.
  - by apply quantity_entry_Raise.
Qed.

(** X8. The whole call raises [ZeroDivisionError], and returns no entry at all,
    exactly when some listed quantity is 0 or has a price per piece of zero
    after its discount; otherwise it returns the dictionary. *)
Theorem multi_quantity_raises_iff m mat t st qs rate tiers oh pm add inc l :
  calculate_multi_quantity_prices m mat t st qs rate tiers oh pm add inc l
    = Raise ZeroDivisionError ↔
  ∃ q, q ∈ qs ∧
       (q = 0%Z ∨
        price_of m
          (discounted_cost_of mat (applied_discount (tiers_of tiers) q))
          t l oh pm add inc == 0).
Proof. apply multi_Raise_iff. Qed.

(** ** Discounts and prices over the quantities *)

Lemma applied_discount_within tiers q :
  discounts_within tiers →
  0 <= applied_discount tiers q ∧ applied_discount tiers q <= 100.
Proof.
  intros Hw.
  destruct (applied_discount_resolves tiers q) as [(k & _ & Hk) | [_ ->]].
  - exact (Hw _ _ Hk).
  - split; lra.
Qed.

Lemma discounted_cost_of_bounds mat d :
  0 <= mat → 0 <= d → d <= 100 →
  discounted_cost_of mat d == mat * (1 - d / 100) ∧
  0 <= discounted_cost_of mat d ∧ discounted_cost_of mat d <= mat.
Proof.
  intros Hmat Hd Hd'. unfold discounted_cost_of.
  assert (H0 : 0 <= d / 100) by (apply Qle_shift_div_l; lra).
  assert (H1 : d / 100 <= 1) by (apply Qle_shift_div_r; lra).
  destruct (decide (0 < d)) as [Hpos|Hnp].
  - split; [reflexivity |]. split; nra.
  - assert (Hz : d == 0) by lra. split; [rewrite Hz; field |]. split; lra.
Qed.

(** X9. When every tier's discount is a percentage between 0 and 100 and the
    material cost is not negative, the discount reported for a quantity is
    such a percentage, the discounted material cost is the material cost
    lowered by it, and it lies between 0 and the material cost. *)
Theorem discounted_material_cost_bounds
    m mat t st qs rate tiers oh pm add inc l results q e :
  calculate_multi_quantity_prices m mat t st qs rate tiers oh pm add inc l
    = Ok results →
  results !! q = Some e →
  0 <= mat →
  discounts_within (tiers_of tiers) →
  (0 <= Quantity.material_discount_percentage e ∧
   Quantity.material_discount_percentage e <= 100) ∧
  Quantity.discounted_material_cost e
    == mat * (1 - Quantity.material_discount_percentage e / 100) ∧
  0 <= Quantity.discounted_material_cost e ∧
  Quantity.discounted_material_cost e <= mat.
Proof.
  intros H Hq Hmat Hw.
  destruct (multi_lookup_inv _ _ _ _ _ _ _ _ _ _ _ _ _ _ _ H Hq) as [_ He].
  apply quantity_entry_inv in He as (_ & r & _ & ->).
  cbn [Quantity.material_discount_percentage Quantity.discounted_material_cost].
  destruct (applied_discount_within _ q Hw) as [Hd Hd'].
  split; [split; assumption |].
  by apply discounted_cost_of_bounds.
Qed.

Lemma discounted_material_cost_bounds_witness :
  ∃ results e,
    calculate_multi_quantity_prices 60 2 6 30 [75%Z] None (Some example_tiers)
      20 25 0 false 0 = Ok results ∧
    results !! 75%Z = Some e ∧
    Quantity.discounted_material_cost e
      == 2 * (1 - Quantity.material_discount_percentage e / 100).
Proof.
  eexists _, _. split; [vm_compute; reflexivity |].
  split; [vm_compute; reflexivity |].
  refine (proj1 (proj2 (discounted_material_cost_bounds 60 2 6 30 [75%Z] None
    (Some example_tiers) 20 25 0 false 0 _ 75%Z _ eq_refl eq_refl _ _))).
  - vm_compute; discriminate.
  - intros k d Hk. unfold tiers_of, example_tiers in Hk.
    repeat (apply lookup_insert_Some in Hk as [[_ <-] | [_ Hk]];
            [split; vm_compute; discriminate |]).
    apply lookup_singleton_Some in Hk as [_ <-]. split; vm_compute; discriminate.
Defined.

Lemma example_tiers_within : discounts_within example_tiers.
Proof.
  intros k d Hk. unfold example_tiers in Hk.
  repeat (apply lookup_insert_Some in Hk as [[_ <-] | [_ Hk]];
          [split; vm_compute; discriminate |]).
  apply lookup_singleton_Some in Hk as [_ <-]. split; vm_compute; discriminate.
Qed.

(** X10. The guard of the multi-quantity form is enough: on an accepted input
    with a positive machine rate, a nonnegative additional material cost,
    discounts between 0 and 100 and quantities from 1 on, the call returns a
    dictionary, and every entry has a positive price before setup. *)
Theorem guarded_multi_quantity_returns
    m mat t st qs rate tiers oh pm add inc l b :
  accepted m mat t l oh pm b →
  0 < m → 0 <= add →
  discounts_within (tiers_of tiers) →
  Forall (λ q, 1 ≤ q)%Z qs →
  ∃ results,
    calculate_multi_quantity_prices m mat t st qs rate tiers oh pm add inc l
      = Ok results ∧
    ∀ q e, results !! q = Some e →
           0 < price_per_piece (Quantity.base_result e).
Proof.
  intros Hacc Hm Hadd Hw Hqs.
  apply accepted_ranges in Hacc as (_ & Hmat & Ht & Hl & Hoh & _ & Hpm & _ & _).
  assert (Hprice : ∀ q,
    0 < price_of m (discounted_cost_of mat (applied_discount (tiers_of tiers) q))
          t l oh pm add inc).
  { intros q. destruct (applied_discount_within _ q Hw) as [Hd Hd'].
    destruct (discounted_cost_of_bounds mat _ Hmat Hd Hd') as (_ & Hdm & _).
    apply price_of_pos; [| assumption ..].
    pose proof (direct_of_nonneg m _ t l add inc (Qlt_le_weak _ _ Hm) Hdm Ht Hl Hadd) as Hnn.
    destruct (Qlt_le_dec 0 (direct_of m (discounted_cost_of mat
                (applied_discount (tiers_of tiers) q)) t l add inc)) as [|Hle];
      [assumption |].
    assert (Hz : direct_of m (discounted_cost_of mat
                   (applied_discount (tiers_of tiers) q)) t l add inc == 0) by lra.
    apply direct_of_zero_iff in Hz as (Hm0 & _); try assumption; lra. }
  destruct (result_cases
    (calculate_multi_quantity_prices m mat t st qs rate tiers oh pm add inc l))
    as [[results Hres] | Hraise].
  - exists results. split; [assumption |]. intros q e Hq.
    destruct (multi_lookup_inv _ _ _ _ _ _ _ _ _ _ _ _ _ _ _ Hres Hq) as [_ He].
    apply quantity_entry_inv in He as (_ & r & Hr & ->).
    cbn [Quantity.base_result].
    apply calculate_price_fields in Hr as [_ ->]. cbn [price_per_piece].
    apply Hprice.
  - exfalso. apply multi_Raise_iff in Hraise as (q & Hq & [-> | Hz]).
    + rewrite Forall_forall in Hqs. specialize (Hqs _ Hq). lia.
    + specialize (Hprice q). lra.
Qed.

Lemma guarded_multi_quantity_returns_witness :
  ∃ results,
    calculate_multi_quantity_prices 60 2 6 30 [1%Z; 10%Z; 75%Z] None
      (Some example_tiers) 20 25 0 false 0 = Ok results ∧
    ∀ q e, results !! q = Some e →
           0 < price_per_piece (Quantity.base_result e).
Proof.
  apply (guarded_multi_quantity_returns 60 2 6 30 [1%Z; 10%Z; 75%Z] None
           (Some example_tiers) 20 25 0 false 0 75).
  - vm_compute; reflexivity.
  - vm_compute; reflexivity.
  - vm_compute; discriminate.
  - exact example_tiers_within.
  - repeat constructor; lia.
Defined.

Lemma applied_discount_increasing tiers q1 q2 :
  discounts_increasing tiers → (q1 ≤ q2)%Z →
  applied_discount tiers q1 <= applied_discount tiers q2 ∨
  applied_discount tiers q1 <= 0.
Proof.
  intros Hinc Hq.
  destruct (applied_discount_resolves tiers q1)
    as [(k1 & (Hs1 & Hk1 & _) & Hd1) | [_ E1]]; [| right; rewrite E1; lra].
  destruct (applied_discount_resolves tiers q2)
    as [(k2 & (_ & _ & Hmax2) & Hd2) | [Hnone _]].
  - left. apply (Hinc k1 k2); [assumption .. |]. apply Hmax2; [assumption | lia].
  - specialize (Hnone k1 Hs1). lia.
Qed.

Lemma discounted_cost_of_antitone mat d1 d2 :
  0 <= mat → d1 <= d2 ∨ d1 <= 0 →
  discounted_cost_of mat d2 <= discounted_cost_of mat d1.
Proof.
  intros Hmat Hd. unfold discounted_cost_of.
  destruct (decide (0 < d2)) as [H2|H2]; destruct (decide (0 < d1)) as [H1|H1].
  - destruct Hd as [Hd|Hd]; [| lra].
    assert (d1 / 100 <= d2 / 100).
    { apply Qle_shift_div_l; [lra |].
      assert (E : d1 / 100 * 100 == d1) by field. rewrite E. exact Hd. }
    nra.
  - assert (0 <= d2 / 100) by (apply Qle_shift_div_l; lra). nra.
  - destruct Hd as [Hd|Hd]; lra.
  - lra.
Qed.

(** X11. With discounts that grow with the thresholds, a nonnegative material
    cost and setup cost, and nonnegative overhead and profit percentages, a
    larger quantity never has a higher price per piece. *)
Theorem price_nonincreasing_in_quantity
    m mat t st qs rate tiers oh pm add inc l results q1 q2 e1 e2 :
  calculate_multi_quantity_prices m mat t st qs rate tiers oh pm add inc l
    = Ok results →
  results !! q1 = Some e1 →
  results !! q2 = Some e2 →
  (0 < q1 ≤ q2)%Z →
  0 <= mat → 0 <= oh → 0 <= pm →
  0 <= setup_cost_of (setup_rate_of m rate) st →
  discounts_increasing (tiers_of tiers) →
  Quantity.price_per_piece e2 <= Quantity.price_per_piece e1.
Proof.
  intros H H1 H2 [Hq1 Hq12] Hmat Hoh Hpm Hc Hinc.
  destruct (multi_lookup_inv _ _ _ _ _ _ _ _ _ _ _ _ _ _ _ H H1) as [_ He1].
  destruct (multi_lookup_inv _ _ _ _ _ _ _ _ _ _ _ _ _ _ _ H H2) as [_ He2].
  apply quantity_entry_inv in He1 as (_ & r1 & Hr1 & ->).
  apply quantity_entry_inv in He2 as (_ & r2 & Hr2 & ->).
  apply calculate_price_fields in Hr1 as [_ ->].
  apply calculate_price_fields in Hr2 as [_ ->].
  cbn [Quantity.price_per_piece price_per_piece].
  pose proof (discounted_cost_of_antitone mat _ _ Hmat
    (applied_discount_increasing _ q1 q2 Hinc Hq12)) as Hdm.
  set (c := setup_cost_of (setup_rate_of m rate) st) in *.
  set (dm1 := discounted_cost_of mat (applied_discount (tiers_of tiers) q1)) in *.
  set (dm2 := discounted_cost_of mat (applied_discount (tiers_of tiers) q2)) in *.
  assert (Hsetup : c / inject_Z q2 <= c / inject_Z q1).
  { assert (Hp1 : 0 < inject_Z q1) by (by apply inject_Z_pos).
    assert (Hp2 : 0 < inject_Z q2) by (apply inject_Z_pos; lia).
    assert (Hle : inject_Z q1 <= inject_Z q2) by (by rewrite <- Zle_Qle).
    apply Qle_shift_div_l; [assumption |].
    assert (E : c / inject_Z q2 * inject_Z q1
                == c * (inject_Z q1 / inject_Z q2)) by (field; lra).
    rewrite E.
    assert (inject_Z q1 / inject_Z q2 <= 1) by (apply Qle_shift_div_r; lra).
    assert (0 <= inject_Z q1 / inject_Z q2) by (apply Qle_shift_div_l; lra).
    nra. }
  rewrite !price_of_direct.
  assert (Hd : direct_of m dm2 t l add inc <= direct_of m dm1 t l add inc).
  { unfold direct_of. lra. }
  pose proof (markup_pos oh Hoh). pose proof (markup_pos pm Hpm).
  set (d1 := direct_of m dm1 t l add inc) in *.
  set (d2 := direct_of m dm2 t l add inc) in *.
  assert (d2 * (1 + oh / 100) <= d1 * (1 + oh / 100)) by nra.
  assert (d2 * (1 + oh / 100) * (1 + pm / 100)
          <= d1 * (1 + oh / 100) * (1 + pm / 100)) by nra.
  lra.
Qed.

Lemma example_tiers_increasing : discounts_increasing example_tiers.
Proof.
  intros k1 k2 d1 d2 H1 H2 Hk. unfold example_tiers in H1, H2.
  repeat (apply lookup_insert_Some in H1 as [[<- <-] | [_ H1]]);
    try (apply lookup_singleton_Some in H1 as [<- <-]);
    repeat (apply lookup_insert_Some in H2 as [[<- <-] | [_ H2]]);
    try (apply lookup_singleton_Some in H2 as [<- <-]);
    first [lia | vm_compute; discriminate].
Qed.

Lemma price_nonincreasing_in_quantity_witness :
  ∃ results e1 e2,
    calculate_multi_quantity_prices 60 2 6 30 [10%Z; 75%Z] None
      (Some example_tiers) 20 25 0 false 0 = Ok results ∧
    results !! 10%Z = Some e1 ∧ results !! 75%Z = Some e2 ∧
    Quantity.price_per_piece e2 <= Quantity.price_per_piece e1.
Proof.
  eexists _, _, _. split; [vm_compute; reflexivity |].
  split; [vm_compute; reflexivity |]. split; [vm_compute; reflexivity |].
  refine (price_nonincreasing_in_quantity 60 2 6 30 [10%Z; 75%Z] None
    (Some example_tiers) 20 25 0 false 0 _ 10%Z 75%Z _ _
    eq_refl eq_refl eq_refl _ _ _ _ _ example_tiers_increasing);
    first [lia | vm_compute; discriminate].
Defined.

(** X12. Two lists with the same quantities, in any order and with any
    repetitions, give the same outcome: both calls raise, or both return the
    same dictionary (as a mapping from quantity to entry). *)
Theorem quantities_order_irrelevant
    m mat t st qs1 qs2 rate tiers oh pm add inc l :
  (∀ q, q ∈ qs1 ↔ q ∈ qs2) →
  calculate_multi_quantity_prices m mat t st qs1 rate tiers oh pm add inc l
  = calculate_multi_quantity_prices m mat t st qs2 rate tiers oh pm add inc l.
Proof.
  intros Hsame.
  destruct (result_cases
    (calculate_multi_quantity_prices m mat t st qs1 rate tiers oh pm add inc l))
    as [[r1 H1] | H1];
  destruct (result_cases
    (calculate_multi_quantity_prices m mat t st qs2 rate tiers oh pm add inc l))
    as [[r2 H2] | H2].
  - rewrite H1, H2. f_equal. apply map_eq. intros q.
    unfold calculate_multi_quantity_prices in H1, H2. cbv zeta in H1, H2.
    rewrite (quantities_loop_lookup _ _ _ _ _ _ _ _ _ _ _ _ _ _ q H1).
    rewrite (quantities_loop_lookup _ _ _ _ _ _ _ _ _ _ _ _ _ _ q H2).
    destruct (decide (q ∈ qs1)) as [Hin|Hin].
    + rewrite decide_True; [reflexivity | by apply Hsame].
    + rewrite decide_False; [reflexivity |]. by rewrite <- Hsame.
  - exfalso. apply multi_Raise_iff in H2 as (q & Hq & Hr).
    assert (Hraise : calculate_multi_quantity_prices m mat t st qs1 rate tiers
                       oh pm add inc l = Raise ZeroDivisionError).
    { apply multi_Raise_iff. exists q. split; [by apply Hsame | assumption]. }
    congruence.
  - exfalso. apply multi_Raise_iff in H1 as (q & Hq & Hr).
    assert (Hraise : calculate_multi_quantity_prices m mat t st qs2 rate tiers
                       oh pm add inc l = Raise ZeroDivisionError).
    { apply multi_Raise_iff. exists q. split; [by apply Hsame | assumption]. }
    congruence.
  - by rewrite H1, H2.
Qed.

Lemma quantities_order_irrelevant_witness :
  calculate_multi_quantity_prices 60 2 6 30 [10%Z; 5%Z; 10%Z] None
    (Some example_tiers) 20 25 0 false 0
  = calculate_multi_quantity_prices 60 2 6 30 [5%Z; 10%Z] None
      (Some example_tiers) 20 25 0 false 0.
Proof.
  apply (quantities_order_irrelevant 60 2 6 30 [10%Z; 5%Z; 10%Z] [5%Z; 10%Z]).
  intros q. rewrite !elem_of_cons, !elem_of_nil. tauto.
Defined.

(** * The preset store *)

Section preset_store_facts.
Context {fs json : Type} `{!runtime fs json} `{!runtime_laws}.











End preset_store_facts.

(** The file system in memory meets [runtime_laws]. *)
Global Instance mem_runtime_laws : runtime_laws (fs:=mem) (json:=string).
Proof.
  split.
  - intros d s s' [= <-]. apply bool_decide_eq_true. left. apply list_elem_of_here.
  - intros p j s s' [= <-]. unfold read_json, path_exists, mem_runtime.
    cbn [mem_files mem_dirs]. rewrite lookup_insert_eq. split; [reflexivity |].
    apply bool_decide_eq_true. right. by eexists.
  - intros p j s s' r q [= <- <-] Hq. apply bool_decide_eq_true in Hq.
    apply bool_decide_eq_true. cbn [mem_files mem_dirs].
    destruct Hq as [Hq | Hq]; [by left | right].
    destruct (decide (p = q)) as [-> | Hne].
    + rewrite lookup_insert_eq. by eexists.
    + by rewrite lookup_insert_ne.
  - intros p s s'. unfold remove, path_exists, mem_runtime.
    destruct (mem_files s !! p) eqn:Hp; [| discriminate].
    destruct (decide (p ∈ mem_dirs s)) as [|Hd]; [discriminate |].
    intros [= <-]. apply bool_decide_eq_false. cbn [mem_files mem_dirs].
    intros [Hd' | Hf]; [contradiction |].
    rewrite lookup_delete_eq in Hf. by destruct Hf.
  - intros p s s' r q. unfold remove, path_exists, mem_runtime.
    intros Hrm Hne Hq. apply bool_decide_eq_true in Hq.
    apply bool_decide_eq_true.
    destruct (mem_files s !! p) eqn:Hp; [| by injection Hrm as <- <-].
    destruct (decide (p ∈ mem_dirs s)) as [|Hd]; [by injection Hrm as <- <- |].
    injection Hrm as <- <-. cbn [mem_files mem_dirs].
    destruct Hq as [Hq | Hq]; [by left | right]. by rewrite lookup_delete_ne.
  - intros n E. unfold path_join, mem_runtime in E.
    apply (f_equal length) in E. rewrite length_app in E. cbn in E. lia.
  - intros d n j s s'. unfold write_json, path_join, listdir, mem_runtime.
    intros [= <-] Hsep. eexists. split; [reflexivity |].
    apply list_elem_of_omap. exists (d ++ "/"%char :: n, j). split.
    + apply elem_of_map_to_list. cbn [mem_files]. apply lookup_insert_eq.
    + assert (Hdrop : drop (length d + 1) (d ++ "/"%char :: n) = n).
      { replace (length d + 1)%nat with (length (d ++ ["/"%char]))
          by (rewrite length_app; reflexivity).
        rewrite (cons_middle "/"%char d n), (assoc_L (++)).
        apply drop_app_length. }
      cbv zeta. rewrite Hdrop. by rewrite decide_True.
Qed.




(** ** Names of presets *)

Lemma rfind_from_notin c s i last : c ∉ s → rfind_from c s i last = last.
Proof.
  revert i last. induction s as [|x s IH]; intros i last Hc; [reflexivity |].
  apply not_elem_of_cons in Hc as [Hx Hs]. cbn [rfind_from].
  rewrite decide_False by congruence. by apply IH.
Qed.

Lemma rfind_from_last c l k i last :
  c ∉ k → rfind_from c (l ++ c :: k) i last = (i + Z.of_nat (length l))%Z.
Proof.
  intros Hk. revert i last. induction l as [|x l IH]; intros i last.
  - cbn [app rfind_from length]. rewrite decide_True by reflexivity.
    rewrite rfind_from_notin by assumption. lia.
  - cbn [app rfind_from length]. rewrite IH. lia.
Qed.

Lemma splitext_json x :
  "/"%char ∉ x →
  splitext (x ++ lit ".json")
  = if forallb (fun c => bool_decide (c = "."%char)) x
    then (x ++ lit ".json", [])
    else (x, lit ".json").
Proof.
  intros Hsep. unfold splitext.
  assert (Hs : rfind "/" (x ++ lit ".json") = (-1)%Z).
  { apply rfind_from_notin. rewrite elem_of_app. intros [? | Hin]; [done |].
    vm_compute in Hin.
    repeat (apply elem_of_cons in Hin as [? | Hin]; [discriminate |]).
    by apply elem_of_nil in Hin. }
  assert (Hd : rfind "." (x ++ lit ".json") = Z.of_nat (length x)).
  { change (lit ".json") with ("."%char :: lit "json"). unfold rfind.
    rewrite rfind_from_last; [lia |]. vm_compute. intros Hin.
    repeat (apply elem_of_cons in Hin as [? | Hin]; [discriminate |]).
    by apply elem_of_nil in Hin. }
  cbv zeta. rewrite Hs, Hd. rewrite decide_True by lia.
  replace (Z.to_nat (Z.of_nat (length x) - (-1 + 1))) with (length x) by lia.
  replace (Z.to_nat (-1 + 1)) with 0%nat by lia.
  rewrite Nat2Z.id. rewrite drop_0, take_app_length, drop_app_length.
  reflexivity.
Qed.

Lemma endswith_true s t : endswith s t = true ↔ ∃ k, s = k ++ t.
Proof. unfold endswith. rewrite bool_decide_eq_true. reflexivity. Qed.

(** X16. A listed name leads back to its file, with one exception.  For a file
    of the presets directory whose name ends in [.json], the name under
    which [get_all_presets] lists it is turned by [load_preset] and
    [delete_preset] into that file's name again, unless the file's name ends
    in [.json.json]: then they address another file. *)
Theorem listed_name_addresses_file f :
  endswith f (lit ".json") = true →
  "/"%char ∉ f →
  load_file_name (splitext f).1 = f ↔ endswith f (lit ".json.json") = false.
Proof.
  intros [x ->]%endswith_true Hsep.
  assert (Hx : "/"%char ∉ x) by (intros ?; apply Hsep, elem_of_app; by left).
  rewrite (splitext_json x Hx).
  change (lit ".json.json") with (lit ".json" ++ lit ".json").
  destruct (forallb (fun c => bool_decide (c = "."%char)) x) eqn:Hdots; cbn [fst].
  - assert (Hnot : endswith (x ++ lit ".json") (lit ".json" ++ lit ".json") = false).
    { apply bool_decide_eq_false. intros [k Hk].
      rewrite (assoc_L (++)) in Hk. apply (inj (.++ lit ".json")) in Hk. subst x.
      rewrite forallb_app in Hdots. apply andb_true_iff in Hdots as [_ Hd].
      vm_compute in Hd. discriminate. }
    split; [by intros _ |]. intros _. unfold load_file_name.
    rewrite (proj2 (endswith_true _ _)) by eauto. reflexivity.
  - unfold load_file_name at 1.
    destruct (endswith x (lit ".json")) eqn:Hend.
    + split.
      * intros E. apply (f_equal length) in E. rewrite length_app in E.
        cbn in E. lia.
      * intros Hno. exfalso. apply endswith_true in Hend as [k ->].
        apply bool_decide_eq_false in Hno. apply Hno.
        exists k. by rewrite (assoc_L (++)).
    + split; [| by intros _]. intros _.
      apply bool_decide_eq_false. intros [k Hk].
      rewrite (assoc_L (++)) in Hk. apply (inj (.++ lit ".json")) in Hk. subst x.
      apply bool_decide_eq_false in Hend. apply Hend. by exists k.
Qed.

Lemma listed_name_addresses_file_witness :
  load_file_name (splitext (lit "my_preset.json")).1 = lit "my_preset.json" ∧
  load_file_name (splitext (lit "a.json.json")).1 ≠ lit "a.json.json".
Proof.
  split.
  - apply (listed_name_addresses_file (lit "my_preset.json"));
      [vm_compute; reflexivity | | vm_compute; reflexivity].
    vm_compute. intros Hin.
    repeat (apply elem_of_cons in Hin as [? | Hin]; [discriminate |]).
    by apply elem_of_nil in Hin.
  - intros E.
    apply (listed_name_addresses_file (lit "a.json.json")) in E;
      [vm_compute in E; discriminate | vm_compute; reflexivity |].
    vm_compute. intros Hin.
    repeat (apply elem_of_cons in Hin as [? | Hin]; [discriminate |]).
    by apply elem_of_nil in Hin.
Defined.
